(* ===================================================================== *)
(* file2do-backend: the request handlers of app.js, embedded in Rocq.     *)
(*                                                                       *)
(* app.js is an Express application.  Every handler reads a request,     *)
(* touches the file system (uploads/ and compressed/), calls an external *)
(* tool or the pdf-lib library, and sends one response.  The embedding   *)
(* keeps that shape: a handler is a computation in a state-and-exception *)
(* monad over the file system and the response slot; the external tools  *)
(* (pdf-lib's parser and writer, sharp, ffmpeg) are parameters.          *)
(* ===================================================================== *)

From Stdlib Require Import ZArith Lia Ascii String List.
From stdpp Require Import base gmap strings list pretty.

Local Open Scope Z_scope.

(* --------------------------------------------------------------------- *)
(* JavaScript values used by the handlers                                *)
(* --------------------------------------------------------------------- *)

Module JS.

(** A number that came out of [parseInt]: [None] is NaN, [Some n] the
    integer n, which is always one that a double holds exactly (see
    [toDouble]).  Integers of magnitude 2^1024 and more, which JavaScript
    holds as Infinity, stay integers here: they compare with 0, 10, 40,
    60, 80, 90 and 100 as Infinity does. *)
Definition number := option Z.

(** The double nearest to the integer n, ties to the even significand:
    n itself up to 53 bits, otherwise its top 53 bits rounded. *)
Definition toDouble (n : Z) : Z :=
  let a := Z.abs n in
  let k := Z.log2 a in
  if k <? 53 then n
  else
    let s := k - 52 in
    let q := Z.shiftr a s in
    let r := Z.land a (Z.ones s) in
    let half := Z.shiftl 1 (s - 1) in
    let q' := if (half <? r) || ((r =? half) && Z.odd q) then q + 1 else q in
    Z.sgn n * Z.shiftl q' s.

(** StrWhiteSpaceChar, for code units below 256: TAB, LF, VT, FF, CR,
    SP and NBSP. *)
Definition isWhiteSpace (c : ascii) : bool :=
  let n := Z.of_nat (nat_of_ascii c) in
  ((9 <=? n) && (n <=? 13)) || (n =? 32) || (n =? 160).

Fixpoint trimStart (s : string) : string :=
  match s with
  | String c r => if isWhiteSpace c then trimStart r else s
  | EmptyString => s
  end.

(** Value of a character as a digit: 0-9, then a-z and A-Z for 10-35. *)
Definition digitValue (c : ascii) : option Z :=
  let n := Z.of_nat (nat_of_ascii c) in
  if (48 <=? n) && (n <=? 57) then Some (n - 48)
  else if (97 <=? n) && (n <=? 122) then Some (n - 87)
  else if (65 <=? n) && (n <=? 90) then Some (n - 55)
  else None.

(** The longest prefix of radix-[R] digits, as an integer; [acc] is the
    value read so far, [None] while no digit has been read. *)
Fixpoint digits (R : Z) (s : string) (acc : option Z) : option Z :=
  match s with
  | EmptyString => acc
  | String c r =>
      match digitValue c with
      | Some d =>
          if d <? R
          then digits R r (Some (match acc with Some a => a * R + d | None => d end))
          else acc
      | None => acc
      end
  end.

(** ToString of a request field: a missing field is [undefined]. *)
Definition ToString (v : option string) : string :=
  match v with
  | Some s => s
  | None => "undefined"
  end.

(** [parseInt(v)] with no radix argument: leading white space, a sign,
    an optional 0x/0X prefix (radix 16), then digits up to the first
    character that is not one; NaN when there is no digit.  The integer
    read is returned as a Number, that is, rounded to a double. *)
Definition parseInt (v : option string) : number :=
  let inputString := trimStart (ToString v) in
  let '(sign, rest) :=
    match inputString with
    | String "-"%char r => (-1, r)
    | String "+"%char r => (1, r)
    | _ => (1, inputString)
    end in
  let '(R, rest) :=
    match rest with
    | String "0"%char (String "x"%char r) => (16, r)
    | String "0"%char (String "X"%char r) => (16, r)
    | _ => (10, rest)
    end in
  match digits R rest None with
  | Some n => Some (toDouble (sign * n))
  | None => None
  end.

(** [n || d] on numbers: NaN and 0 (and -0) are falsy. *)
Definition or (n : number) (d : Z) : Z :=
  match n with
  | Some v => if v =? 0 then d else v
  | None => d
  end.

(** [(a % 360 + 360) % 360]: [%] truncates towards zero ([Z.rem]). *)
Definition normalizeAngle (rotation : Z) : Z :=
  Z.rem (Z.rem rotation 360 + 360) 360.

End JS.

(* --------------------------------------------------------------------- *)
(* POST /compress-pdf: choice of the compression method (lines 84-160)   *)
(* --------------------------------------------------------------------- *)

Inductive Method :=
| extreme (dpi quality : Z)          (* pdftoppm -jpeg -r dpi, then pdf-lib *)
| standard (setting : string).       (* Ghostscript -dPDFSETTINGS=setting *)

Definition pdf_compression (body_compression : option string) : Z :=
  JS.or (JS.parseInt body_compression) 60.

Definition gs_setting (compression : Z) : string :=
  if 80 <=? compression then "/screen"
  else if 60 <=? compression then "/ebook"
  else if 40 <=? compression then "/printer"
  else "/prepress".

Definition compress_pdf_method (body_compression : option string) : Method :=
  let compression := pdf_compression body_compression in
  if 90 <=? compression then extreme 50 30
  else standard (gs_setting compression).

(** The method as the specification words it: the default of 60 is taken
    only for a missing or non-numeric parameter, every parsed integer is
    used as it is. *)
Definition claimed_compress_pdf_method (body_compression : option string) : Method :=
  let compression :=
    match JS.parseInt body_compression with
    | Some n => n
    | None => 60
    end in
  if 90 <=? compression then extreme 50 30
  else standard (gs_setting compression).

(* --------------------------------------------------------------------- *)
(* POST /upload: encoder quality (lines 56-57)                           *)
(* --------------------------------------------------------------------- *)

Definition image_compression (body_compression : option string) : Z :=
  JS.or (JS.parseInt body_compression) 60.

(** Math.max(10, 100 - compression): the subtraction is the one of
    doubles, the exact difference rounded. *)
Definition image_quality (body_compression : option string) : Z :=
  Z.max 10 (JS.toDouble (100 - image_compression body_compression)).

(** The quality as the specification words it. *)
Definition claimed_image_quality (body_compression : option string) : Z :=
  let compression :=
    match JS.parseInt body_compression with
    | Some n => n
    | None => 60
    end in
  Z.max 10 (JS.toDouble (100 - compression)).

(* --------------------------------------------------------------------- *)
(* The world a handler runs in: files and the response slot              *)
(* --------------------------------------------------------------------- *)

Definition bytes := list Byte.byte.

Inductive Body :=
| Text (message : string)                          (* res.send(message) *)
| JsonError (error : string)                       (* res.json({ error }) *)
| JsonDownload (downloadUrl : string) (size : Z)   (* res.json({ downloadUrl, size }) *)
| JsonFinal (downloadUrl : string) (finalSize : Z). (* res.json({ downloadUrl, finalSize }) *)

Record Response := mkResponse { status : Z; body : Body }.

Record World := mkWorld {
  files : gmap string bytes;       (* path -> content *)
  sent : option Response           (* what res has sent so far *)
}.

Inductive Exn :=
| TypeError (message : string)
| SyntaxError (message : string)
| Error (message : string)
| ENOENT (path : string)
| ERR_HTTP_HEADERS_SENT.

Inductive Completion (A : Type) :=
| Normal (a : A)
| Throw (e : Exn).
Arguments Normal {A} a.
Arguments Throw {A} e.

(** Computations that read and write the world and may throw; the effects
    made before a throw stay. *)
Definition M (A : Type) : Type := World -> Completion A * World.

#[global] Instance M_ret : MRet M := fun A a w => (Normal a, w).

#[global] Instance M_bind : MBind M := fun A B k m w =>
  match m w with
  | (Normal a, w') => k a w'
  | (Throw e, w') => (Throw e, w')
  end.

Definition throw {A : Type} (e : Exn) : M A := fun w => (Throw e, w).

(** try { m } catch (err) { h err } *)
Definition try_catch {A : Type} (m : M A) (h : Exn -> M A) : M A := fun w =>
  match m w with
  | (Normal a, w') => (Normal a, w')
  | (Throw e, w') => h e w'
  end.

Definition lift {A : Type} (c : Completion A) : M A := fun w => (c, w).

Module fs.

Definition existsSync (path : option string) : M bool := fun w =>
  match path with
  | Some p => (Normal (bool_decide (is_Some (files w !! p))), w)
  | None => (Normal false, w)
  end.

Definition readFileSync (path : string) : M bytes := fun w =>
  match files w !! path with
  | Some b => (Normal b, w)
  | None => (Throw (ENOENT path), w)
  end.

Definition writeFileSync (path : string) (data : bytes) : M unit := fun w =>
  (Normal tt, mkWorld (<[path := data]> (files w)) (sent w)).

Definition unlinkSync (path : string) : M unit := fun w =>
  match files w !! path with
  | Some _ => (Normal tt, mkWorld (delete path (files w)) (sent w))
  | None => (Throw (ENOENT path), w)
  end.

(** fs.statSync(path).size *)
Definition statSync_size (path : string) : M Z := fun w =>
  match files w !! path with
  | Some b => (Normal (Z.of_nat (length b)), w)
  | None => (Throw (ENOENT path), w)
  end.

End fs.

(** res.status(code).send(..) / res.json(..): one response per request, a
    second one throws. *)
Definition res_send (code : Z) (b : Body) : M unit := fun w =>
  match sent w with
  | None => (Normal tt, mkWorld (files w) (Some (mkResponse code b)))
  | Some _ => (Throw ERR_HTTP_HEADERS_SENT, w)
  end.

(** path.join(dir, name), POSIX. *)
Definition path_join (dir name : string) : string := dir +:+ "/" +:+ name.

Definition download_url (name : string) : string :=
  "https://file2do-backend.onrender.com/compressed/" +:+ name.

(** The file multer stored for the request. *)
Record File := mkFile {
  path : string;
  filename : string;
  mimetype : string;
  originalname : string
}.

(** A request field that the handler decodes with JSON.parse: absent
    ([undefined] or the empty string, both falsy), present but not
    decodable to the expected list (JSON.parse or the loop over it
    throws), or decoded. *)
Inductive Field (A : Type) :=
| Absent
| Malformed
| Parsed (v : A).
Arguments Absent {A}.
Arguments Malformed {A}.
Arguments Parsed {A} v.

(* --------------------------------------------------------------------- *)
(* pdf-lib, as far as app.js uses it                                     *)
(* --------------------------------------------------------------------- *)

Module PdfLib.

(** A page: what it draws, its size (hundredths of a point) and its
    /Rotate entry (0 when absent, as getRotation reads it). *)
Record PDFPage := mkPage {
  contents : string;
  mediaBox : Z * Z;
  Rotate : Z
}.

(** A document, as far as the handlers look at it: its pages in order.
    The metadata that the writer adds is left to [save]. *)
Abbreviation PDFDocument := (list PDFPage).

(** PDFDocument.create() *)
Definition create : PDFDocument := [].

Definition getPageCount (doc : PDFDocument) : Z := Z.of_nat (length doc).

(** srcPages[i] on a JavaScript array: undefined out of range. *)
Definition pageAt (doc : PDFDocument) (i : Z) : option PDFPage :=
  if (0 <=? i) && (i <? getPageCount doc) then doc !! Z.to_nat i else None.

(** dst.copyPages(src, indices): each srcPages[index].node is copied
    with its inheritable entries (size, rotation); an index with no
    page makes [srcPage.node] a TypeError. *)
Fixpoint copyPages (src : PDFDocument) (indices : list Z) : Completion (list PDFPage) :=
  match indices with
  | [] => Normal []
  | i :: rest =>
      match pageAt src i with
      | None => Throw (TypeError "Cannot read properties of undefined (reading 'node')")
      | Some p =>
          match copyPages src rest with
          | Normal ps => Normal (p :: ps)
          | Throw e => Throw e
          end
      end
  end.

(** PageSizes.A4 = [595.28, 841.89] *)
Definition A4 : Z * Z := (59528, 84189).

(** doc.addPage(): a new empty A4 page at the end. *)
Definition addBlankPage (doc : PDFDocument) : PDFDocument :=
  doc ++ [mkPage "" A4 0].

(** doc.addPage(page) *)
Definition addPage (doc : PDFDocument) (page : PDFPage) : PDFDocument :=
  doc ++ [page].

(** page.drawText(text) on the page at [index] of [doc], which the
    document shares with the caller. *)
Definition drawText (doc : PDFDocument) (index : nat) (text : string) : PDFDocument :=
  alter (fun p => mkPage (contents p +:+ text) (mediaBox p) (Rotate p)) index doc.

(** page.setRotation(degrees(angle)): the angle must be a multiple of
    90 (assertMultiple), and replaces the /Rotate entry. *)
Definition setRotation (page : PDFPage) (angle : Z) : Completion PDFPage :=
  if Z.rem angle 90 =? 0
  then Normal (mkPage (contents page) (mediaBox page) angle)
  else Throw (Error "degreesAngle must be a multiple of 90").

End PdfLib.
Import PdfLib.

(* --------------------------------------------------------------------- *)
(* The page loops of /organize-pdf and /rotate-pdf                       *)
(* --------------------------------------------------------------------- *)

(** An element of the actions list of /organize-pdf: [0, 2, 'blank', 1]. *)
Inductive Action :=
| blank
| index (i : Z).

(** An element of the actions list of /rotate-pdf. *)
Record RotateAction := mkRotate { originalIndex : Z; rotation : Z }.

(** const [copiedPage] = pages: undefined when the array is empty. *)
Definition first_of (pages : list PDFPage) : option PDFPage := head pages.

(** newPdf.addPage(copiedPage), where an undefined argument asks for a
    new empty page. *)
Definition addPage_opt (newPdf : PDFDocument) (copiedPage : option PDFPage) : PDFDocument :=
  match copiedPage with
  | Some p => addPage newPdf p
  | None => addBlankPage newPdf
  end.

(** Lines 409-417. *)
Fixpoint organize_loop (originalPdf : PDFDocument) (actions : list Action)
    (newPdf : PDFDocument) : Completion PDFDocument :=
  match actions with
  | [] => Normal newPdf
  | blank :: rest =>
      let newPdf := addBlankPage newPdf in
      let newPdf := drawText newPdf (length newPdf - 1)%nat "" in
      organize_loop originalPdf rest newPdf
  | index action :: rest =>
      match copyPages originalPdf [action] with
      | Normal copied =>
          organize_loop originalPdf rest (addPage_opt newPdf (first_of copied))
      | Throw e => Throw e
      end
  end.

(** Lines 575-578: the rotation is set only when the normalized angle is
    not 0. *)
Definition apply_rotation (copiedPage : option PDFPage) (rotation : Z)
    : Completion (option PDFPage) :=
  let angle := JS.normalizeAngle rotation in
  if angle =? 0 then Normal copiedPage
  else
    match copiedPage with
    | Some p =>
        match setRotation p angle with
        | Normal p' => Normal (Some p')
        | Throw e => Throw e
        end
    | None => Throw (TypeError "Cannot read properties of undefined (reading 'setRotation')")
    end.

(** Lines 564-581. *)
Fixpoint rotate_loop (originalPdf : PDFDocument) (actions : list RotateAction)
    (newPdf : PDFDocument) : Completion PDFDocument :=
  match actions with
  | [] => Normal newPdf
  | mkRotate originalIndex rotation :: rest =>
      if getPageCount originalPdf <=? originalIndex
      then rotate_loop originalPdf rest newPdf                  (* continue *)
      else
        match copyPages originalPdf [originalIndex] with
        | Normal copied =>
            match apply_rotation (first_of copied) rotation with
            | Normal copiedPage =>
                rotate_loop originalPdf rest (addPage_opt newPdf copiedPage)
            | Throw e => Throw e
            end
        | Throw e => Throw e
        end
  end.

(* --------------------------------------------------------------------- *)
(* The handlers                                                          *)
(* --------------------------------------------------------------------- *)

Record PdfRequest (A : Type) := mkPdfRequest {
  pdf_file : option File;              (* req.file *)
  pdf_actions : Field (list A)         (* req.body.actions *)
}.
Arguments mkPdfRequest {A} _ _.
Arguments pdf_file {A} _.
Arguments pdf_actions {A} _.

Record UploadRequest := mkUploadRequest {
  up_file : option File;               (* req.file *)
  up_param : option string             (* req.body.compression, req.body.crf *)
}.

Inductive ImageFormat := png | jpeg.

Section Handlers.

(** PDFDocument.load: the parser of pdf-lib, [None] when it throws. *)
Variable load : bytes -> option PDFDocument.
(** pdfDoc.save(): the writer of pdf-lib. *)
Variable save : PDFDocument -> bytes.
(** sharp(input).png({quality}) / .jpeg({quality}): the encoded image,
    [None] when sharp rejects. *)
Variable sharp : ImageFormat -> Z -> bytes -> option bytes.
(** ffmpeg -vcodec libx264 -preset medium -crf crf: the encoded video,
    [None] when the command exits with an error. *)
Variable ffmpeg : Z -> bytes -> option bytes.

Definition PDFDocument_load (data : bytes) : M PDFDocument :=
  match load data with
  | Some doc => mret doc
  | None => throw (Error "Failed to parse PDF document")
  end.

(** JSON.parse(req.body.actions), once the field is known to be truthy. *)
Definition parse_actions {A : Type} (f : Field (list A)) : M (list A) :=
  match f with
  | Parsed v => mret v
  | _ => throw (SyntaxError "Unexpected token in JSON")
  end.

Definition is_absent {A : Type} (f : Field A) : bool :=
  match f with
  | Absent => true
  | _ => false
  end.

(** if (fs.existsSync(inputPath)) fs.unlinkSync(inputPath); *)
Definition unlink_if_exists (inputPath : option string) : M unit :=
  b ← fs.existsSync inputPath;
  match inputPath with
  | Some p => if b : bool then fs.unlinkSync p else mret tt
  | None => mret tt
  end.

(** POST /organize-pdf, lines 395-432; [now] is Date.now(). *)
Definition organize_pdf (req : PdfRequest Action) (now : Z) : M unit :=
  let inputPath := path <$> pdf_file req in
  let outputFilename := "organized_" +:+ pretty now +:+ ".pdf" in
  let outputPath := path_join "compressed" outputFilename in
  try_catch
    (match inputPath with
     | Some inputPath =>
         if is_absent (pdf_actions req)
         then res_send 400 (JsonError "Missing file or actions.")
         else
           actions ← parse_actions (pdf_actions req);
           data ← fs.readFileSync inputPath;
           originalPdf ← PDFDocument_load data;
           newPdf ← lift (organize_loop originalPdf actions create);
           let pdfBytes := save newPdf in
           fs.writeFileSync outputPath pdfBytes;;
           fs.unlinkSync inputPath;;
           res_send 200 (JsonDownload (download_url outputFilename)
                                      (Z.of_nat (length pdfBytes)))
     | None => res_send 400 (JsonError "Missing file or actions.")
     end)
    (fun err =>
       unlink_if_exists inputPath;;
       res_send 500 (JsonError "Failed to organize PDF.")).

(** POST /rotate-pdf, lines 541-604. *)
Definition rotate_pdf (req : PdfRequest RotateAction) (now : Z) : M unit :=
  let inputPath := path <$> pdf_file req in
  let outputFilename := "rotated_" +:+ pretty now +:+ ".pdf" in
  let outputPath := path_join "compressed" outputFilename in
  try_catch
    (match inputPath with
     | Some inputPath =>
         if is_absent (pdf_actions req)
         then res_send 400 (JsonError "Missing file or actions.")
         else
           actions ← parse_actions (pdf_actions req);
           data ← fs.readFileSync inputPath;
           originalPdf ← PDFDocument_load data;
           newPdf ← lift (rotate_loop originalPdf actions create);
           let pdfBytes := save newPdf in
           (if (length pdfBytes =? 0)%nat
            then throw (Error "PDF save failed, empty buffer.")
            else mret tt);;
           fs.writeFileSync outputPath pdfBytes;;
           fs.unlinkSync inputPath;;
           res_send 200 (JsonDownload (download_url outputFilename)
                                      (Z.of_nat (length pdfBytes)))
     | None => res_send 400 (JsonError "Missing file or actions.")
     end)
    (fun err =>
       unlink_if_exists inputPath;;
       res_send 500 (JsonError "Failed to rotate PDF.")).

(** await image.png({ quality }).toFile(outputPath), or .jpeg: sharp
    reads the input when the pipeline runs. *)
Definition sharp_toFile (fmt : ImageFormat) (quality : Z)
    (inputPath outputPath : string) : M unit := fun w =>
  match files w !! inputPath with
  | Some data =>
      match sharp fmt quality data with
      | Some out => fs.writeFileSync outputPath out w
      | None => (Throw (Error "Input file contains unsupported image format"), w)
      end
  | None => (Throw (Error "Input file is missing"), w)
  end.

(** req.file.path and the like: a TypeError when multer stored no file. *)
Definition the_file (f : option File) : M File :=
  match f with
  | Some file => mret file
  | None => throw (TypeError "Cannot read properties of undefined (reading 'path')")
  end.

(** allowedTypes.includes(req.file.mimetype) *)
Definition allowedTypes : list string := ["image/jpeg"; "image/png"].

(** POST /upload, lines 45-78. *)
Definition upload (req : UploadRequest) : M unit :=
  file ← the_file (up_file req);
  let inputPath := path file in
  let outputFilename := "compressed_" +:+ filename file in
  let outputPath := path_join "compressed" outputFilename in
  if negb (bool_decide (mimetype file ∈ allowedTypes))
  then
    fs.unlinkSync inputPath;;
    res_send 400 (Text "Only JPG and PNG formats are allowed.")
  else
    let quality := image_quality (up_param req) in
    try_catch
      ((if bool_decide (mimetype file = "image/png")
        then sharp_toFile png quality inputPath outputPath
        else sharp_toFile jpeg quality inputPath outputPath);;
       compressedSize ← fs.statSync_size outputPath;
       res_send 200 (JsonDownload (download_url outputFilename) compressedSize);;
       fs.unlinkSync inputPath)
      (fun err => res_send 500 (Text "Image compression failed.")).

(** exec(ffmpegCmd, callback): the command runs, then the callback is
    called with its error, if any. *)
Definition exec_ffmpeg (crf : Z) (inputPath outputPath : string) : M bool := fun w =>
  match files w !! inputPath with
  | Some data =>
      match ffmpeg crf data with
      | Some out =>
          (Normal false, mkWorld (<[outputPath := out]> (files w)) (sent w))
      | None => (Normal true, w)
      end
  | None => (Normal true, w)
  end.

(** POST /compress-video, lines 610-636. *)
Definition compress_video (req : UploadRequest) (now : Z) : M unit :=
  file ← the_file (up_file req);
  let inputPath := path file in
  let outputFilename := "compressed_" +:+ pretty now +:+ ".mp4" in
  let outputPath := path_join "compressed" outputFilename in
  let crf := JS.or (JS.parseInt (up_param req)) 28 in
  err ← exec_ffmpeg crf inputPath outputPath;
  if err : bool
  then res_send 500 (Text "Video compression failed.")
  else
    fs.unlinkSync inputPath;;
    finalSize ← fs.statSync_size outputPath;
    res_send 200 (JsonFinal (download_url outputFilename) finalSize).

End Handlers.

(** The world before a request: its files, and nothing sent yet. *)
Definition fresh (fsys : gmap string bytes) : World := mkWorld fsys None.

(* --------------------------------------------------------------------- *)
(* Stand-ins for the external tools, to run the handlers on examples     *)
(* --------------------------------------------------------------------- *)

(** A parser that reads one page per byte, the byte being what the page
    draws. *)
Definition demo_load (data : bytes) : option PDFDocument :=
  Some (map (fun b => mkPage (String (ascii_of_byte b) "") A4 0) data).

(** A writer that emits a header byte and one byte per page. *)
Definition demo_save (doc : PDFDocument) : bytes :=
  Byte.x25 :: map (fun p => match contents p with
                            | String c _ => byte_of_ascii c
                            | EmptyString => Byte.x00
                            end) doc.


(** Tools that fail on every input. *)
Definition failing_sharp (fmt : ImageFormat) (quality : Z) (data : bytes) : option bytes := None.
Definition failing_ffmpeg (crf : Z) (data : bytes) : option bytes := None.

(** An upload of five one-byte pages, "a" to "e". *)
Definition five_pages : bytes := [Byte.x61; Byte.x62; Byte.x63; Byte.x64; Byte.x65].
(** What [demo_load] reads from it. *)
Definition five_page_doc : PDFDocument :=
  [mkPage "a" A4 0; mkPage "b" A4 0; mkPage "c" A4 0; mkPage "d" A4 0; mkPage "e" A4 0].
Definition upload_pdf : File := mkFile "uploads/1700000000000.pdf" "1700000000000.pdf" "application/pdf" "in.pdf".
Definition upload_jpg : File := mkFile "uploads/1700000000001.jpg" "1700000000001.jpg" "image/jpeg" "in.jpg".
Definition upload_mp4 : File := mkFile "uploads/1700000000002.mp4" "1700000000002.mp4" "video/mp4" "in.mp4".

(* --------------------------------------------------------------------- *)
(* The other handlers that run one tool on one upload                    *)
(* --------------------------------------------------------------------- *)

(** !value on a string field of the request body: missing and the empty
    string are falsy. *)
Definition falsy (value : option string) : bool :=
  match value with
  | Some EmptyString => true
  | Some _ => false
  | None => true
  end.

(** exec(cmd, callback) for a command that reads [inputPath] and writes
    [outputPath]: the command runs, then the callback gets its error, if
    any ([true] stands for an error).  This is what the shell does when
    the texts spliced into the command line are plain ([shell_plain]);
    other texts can make it run other commands. *)
Definition exec_tool (tool : bytes -> option bytes) (inputPath outputPath : string)
    : M bool := fun w =>
  match files w !! inputPath with
  | Some data =>
      match tool data with
      | Some out =>
          (Normal false, mkWorld (<[outputPath := out]> (files w)) (sent w))
      | None => (Normal true, w)
      end
  | None => (Normal true, w)
  end.

(** pdf.getPageIndices(): [0, 1, ..., pageCount - 1]. *)
Definition getPageIndices (doc : PDFDocument) : list Z :=
  Z.of_nat <$> seq 0 (length doc).

(** The page of /image-to-pdf: addPage([width, height]) then drawImage at
    the full size of the page; the drawing is recorded as the bytes of
    the image. *)
Definition image_page (imageBytes : bytes) (width height : Z) : PDFPage :=
  mkPage (string_of_list_byte imageBytes) (100 * width, 100 * height) 0.

Record ProtectRequest := mkProtectRequest {
  pr_file : option File;               (* req.file *)
  pr_password : option string          (* req.body.password *)
}.

Section ToolHandlers.

Variable load : bytes -> option PDFDocument.
Variable save : PDFDocument -> bytes.
(** libre.convert(file, '.pdf', undefined, callback): the converted
    document, [None] for an error. *)
Variable libre_convert : bytes -> option bytes.
(** ocrmypdf --force-ocr --output-type pdf *)
Variable ocrmypdf : bytes -> option bytes.
(** qpdf --encrypt password password 256, as the shell runs the command
    line built from the password. *)
Variable qpdf : string -> bytes -> option bytes.
(** path.extname, path.basename(name, ext) and String.prototype.toLowerCase *)
Variable extname : string -> string.
Variable basename : string -> string -> string.
Variable toLowerCase : string -> string.
(** pdfDoc.embedPng / embedJpg: the width and height of the image, [None]
    when pdf-lib throws. *)
Variable embed : ImageFormat -> bytes -> option (Z * Z).

(** POST /convert-to-pdf, lines 201-225. *)
Definition convert_to_pdf (req : UploadRequest) : M unit :=
  file ← the_file (up_file req);
  let inputPath := path file in
  let outputFilename :=
    basename (originalname file) (extname (originalname file)) +:+ ".pdf" in
  let outputPath := path_join "compressed" outputFilename in
  data ← fs.readFileSync inputPath;
  match libre_convert data with
  | None =>
      fs.unlinkSync inputPath;;
      res_send 500 (Text "File conversion failed.")
  | Some done =>
      fs.writeFileSync outputPath done;;
      convertedSize ← fs.statSync_size outputPath;
      res_send 200 (JsonDownload (download_url outputFilename) convertedSize);;
      fs.unlinkSync inputPath
  end.

(** POST /image-to-pdf, lines 228-265. *)
Definition image_to_pdf (req : UploadRequest) (now : Z) : M unit :=
  file ← the_file (up_file req);
  let inputPath := path file in
  let outputFilename := "converted_" +:+ pretty now +:+ ".pdf" in
  let outputPath := path_join "compressed" outputFilename in
  let fileExt := toLowerCase (extname (originalname file)) in
  if negb (bool_decide (fileExt ∈ [".jpg"; ".jpeg"; ".png"]))
  then
    fs.unlinkSync inputPath;;
    res_send 400 (Text "Only JPG, PNG, and JPEG files are allowed.")
  else
    try_catch
      (imageBytes ← fs.readFileSync inputPath;
       let pdfDoc := create in
       image ← match embed (if bool_decide (fileExt = ".png") then png else jpeg)
                       imageBytes with
               | Some dims => mret dims
               | None => throw (Error "The input is not a PNG or JPEG file")
               end;
       let pdfDoc := addPage pdfDoc (image_page imageBytes image.1 image.2) in
       let pdfBytes := save pdfDoc in
       fs.writeFileSync outputPath pdfBytes;;
       res_send 200 (JsonDownload (download_url outputFilename)
                                  (Z.of_nat (length pdfBytes)));;
       fs.unlinkSync inputPath)
      (fun err => res_send 500 (Text "Image to PDF conversion failed.")).


(** The loop of POST /merge-pdf, lines 304-310. *)
Fixpoint merge_loop (uploads : list File) (mergedPdf : PDFDocument) : M PDFDocument :=
  match uploads with
  | [] => mret mergedPdf
  | file :: rest =>
      pdfBytes ← fs.readFileSync (path file);
      pdf ← PDFDocument_load load pdfBytes;
      copiedPages ← lift (copyPages pdf (getPageIndices pdf));
      let mergedPdf := fold_left addPage copiedPages mergedPdf in
      fs.unlinkSync (path file);;
      merge_loop rest mergedPdf
  end.

(** POST /protect-pdf, lines 365-392. *)
Definition protect_pdf (req : ProtectRequest) (now : Z) : M unit :=
  file ← the_file (pr_file req);
  let inputPath := path file in
  let password := pr_password req in
  let outputFilename := "protected_" +:+ pretty now +:+ ".pdf" in
  let outputPath := path_join "compressed" outputFilename in
  if falsy password
  then
    fs.unlinkSync inputPath;;
    res_send 400 (Text "Password is required.")
  else
    err ← exec_tool (qpdf (JS.ToString password)) inputPath outputPath;
    fs.unlinkSync inputPath;;
    if err : bool
    then res_send 500 (Text "PDF protection failed.")
    else
      size ← fs.statSync_size outputPath;
      res_send 200 (JsonDownload (download_url outputFilename) size).

End ToolHandlers.

(* --------------------------------------------------------------------- *)
(* pdf-lib's save() and the shell, more closely                          *)
(* --------------------------------------------------------------------- *)





(* --------------------------------------------------------------------- *)
(* Vocabulary of the statements                                          *)
(* --------------------------------------------------------------------- *)

(** An index that names a page of the source: 0 <= i < pageCount. *)
Definition in_range (originalPdf : PDFDocument) (i : Z) : Prop :=
  0 <= i < getPageCount originalPdf.

(** An action of /organize-pdf that is a blank marker or an in-range
    index. *)
Definition valid_action (originalPdf : PDFDocument) (a : Action) : Prop :=
  match a with
  | blank => True
  | index i => in_range originalPdf i
  end.

(** The empty page that a blank marker adds. *)
Definition empty_page : PDFPage := mkPage "" A4 0.

(** What one action of /organize-pdf puts in the output: the empty page
    for a blank marker, the source page it names for an index. *)
Definition contributes (originalPdf : PDFDocument) (a : Action) (p : PDFPage) : Prop :=
  match a with
  | blank => p = empty_page
  | index i => pageAt originalPdf i = Some p
  end.

(** The page a rotate action yields from the source page [p]. *)
Definition rotated (p : PDFPage) (rotation : Z) : PDFPage :=
  let angle := JS.normalizeAngle rotation in
  if angle =? 0 then p else mkPage (contents p) (mediaBox p) angle.

(** The output path and URL of a handler that names its result
    prefix_<now><ext>. *)
Definition output_name (prefix : string) (now : Z) (ext : string) : string :=
  prefix +:+ pretty now +:+ ext.

(** What one action of /rotate-pdf puts in the output, when it names a
    page of the source. *)
Definition rotate_output (originalPdf : PDFDocument) (a : RotateAction) : option PDFPage :=
  (fun p => rotated p (rotation a)) <$> pageAt originalPdf (originalIndex a).

(** A rotate action that pdf-lib accepts whenever it reaches it: the
    index is not negative and the normalized angle is a multiple of 90. *)
Definition quarter_turn (a : RotateAction) : Prop :=
  0 <= originalIndex a /\ Z.rem (JS.normalizeAngle (rotation a)) 90 = 0.

(** An encoder that refuses every quality below 10. *)
Definition from_10 (sharp : ImageFormat -> Z -> bytes -> option bytes)
    (fmt : ImageFormat) (quality : Z) (data : bytes) : option bytes :=
  if 10 <=? quality then sharp fmt quality data else None.

(** A rotate action that the loop gets past: its index is at or above
    the page count (skipped), or it names a page and its normalized angle
    is a multiple of 90. *)
Definition accepted (originalPdf : PDFDocument) (a : RotateAction) : Prop :=
  getPageCount originalPdf <= originalIndex a
  \/ (0 <= originalIndex a /\ Z.rem (JS.normalizeAngle (rotation a)) 90 = 0).

(** An output page of /rotate-pdf comes from the source page [p]: same
    drawing and size, and a rotation that is the one of [p] or a quarter,
    half or three-quarter turn. *)
Definition turned_copy (p q : PDFPage) : Prop :=
  contents q = contents p /\ mediaBox q = mediaBox p
  /\ (Rotate q = Rotate p \/ Rotate q = 90 \/ Rotate q = 180 \/ Rotate q = 270).

(** An ffmpeg that refuses a constant rate factor of 0. *)
Definition nonzero_crf (ffmpeg : Z -> bytes -> option bytes) (crf : Z) (data : bytes)
    : option bytes :=
  if crf =? 0 then None else ffmpeg crf data.

(** The files left when the uploads of a list have been unlinked one
    after the other. *)
Definition unlink_all (uploads : list File) (fsys : gmap string bytes) : gmap string bytes :=
  fold_left (fun m f => delete (path f) m) uploads fsys.

(** An upload that is on disk and that the parser reads as [doc]. *)
Definition readable (load : bytes -> option PDFDocument) (fsys : gmap string bytes)
    (f : File) (doc : PDFDocument) : Prop :=
  exists data, fsys !! path f = Some data /\ load data = Some doc.

(* ===================================================================== *)
(* Properties                                                            *)
(* ===================================================================== *)

Example parseInt_75 : JS.parseInt (Some "75") = Some 75.
Proof. reflexivity. Qed.
Example parseInt_ws_sign : JS.parseInt (Some "  -12px") = Some (-12).
Proof. reflexivity. Qed.
Example parseInt_hex : JS.parseInt (Some "0x5A") = Some 90.
Proof. reflexivity. Qed.
Example parseInt_nan : JS.parseInt (Some "high") = None.
Proof. reflexivity. Qed.
Example parseInt_missing : JS.parseInt None = None.
Proof. reflexivity. Qed.
Example parseInt_1e3 : JS.parseInt (Some "1e3") = Some 1.
Proof. reflexivity. Qed.

(* --------------------------------------------------------------------- *)
(* pdf-lib facts                                                         *)
(* --------------------------------------------------------------------- *)

Lemma pageAt_in_range (doc : PDFDocument) (i : Z) :
  in_range doc i -> exists p, pageAt doc i = Some p.
Proof.
  unfold in_range, pageAt, getPageCount. intros [Hlo Hhi].
  assert (Hb : (0 <=? i) && (i <? Z.of_nat (length doc)) = true).
  { apply andb_true_intro; split; [apply Z.leb_le | apply Z.ltb_lt]; lia. }
  rewrite Hb. apply lookup_lt_is_Some_2. lia.
Qed.

Lemma pageAt_Some_in_range (doc : PDFDocument) (i : Z) (p : PDFPage) :
  pageAt doc i = Some p -> in_range doc i.
Proof.
  unfold in_range, pageAt. intros H.
  destruct ((0 <=? i) && (i <? getPageCount doc)) eqn:Hb; [| discriminate].
  apply andb_prop in Hb as [Hlo Hhi].
  apply Z.leb_le in Hlo. apply Z.ltb_lt in Hhi. lia.
Qed.

Lemma pageAt_out_of_range (doc : PDFDocument) (i : Z) :
  ~ in_range doc i -> pageAt doc i = None.
Proof.
  intros Hout. destruct (pageAt doc i) as [p|] eqn:E; [| reflexivity].
  exfalso. eauto using pageAt_Some_in_range.
Qed.

Lemma copyPages_one (src : PDFDocument) (i : Z) (p : PDFPage) :
  pageAt src i = Some p -> copyPages src [i] = Normal [p].
Proof. intros H. simpl. rewrite H. reflexivity. Qed.

Lemma copyPages_one_undefined (src : PDFDocument) (i : Z) :
  pageAt src i = None -> exists e, copyPages src [i] = Throw e.
Proof. intros H. simpl. rewrite H. eauto. Qed.

Lemma drawText_nothing (doc : PDFDocument) (p : PDFPage) :
  contents p = "" ->
  drawText (doc ++ [p]) (length (doc ++ [p]) - 1) "" = doc ++ [p].
Proof.
  intros Hc. unfold drawText.
  replace (length (doc ++ [p]) - 1)%nat with (length doc + 0)%nat
    by (rewrite length_app; simpl; lia).
  rewrite alter_app_r. simpl. destruct p as [c m r]. simpl in *. subst c.
  reflexivity.
Qed.

(* --------------------------------------------------------------------- *)
(* The loop of /organize-pdf                                             *)
(* --------------------------------------------------------------------- *)

Lemma organize_loop_blank (src : PDFDocument) (rest : list Action) (acc : PDFDocument) :
  organize_loop src (blank :: rest) acc = organize_loop src rest (acc ++ [empty_page]).
Proof.
  simpl. unfold addBlankPage. fold empty_page.
  rewrite (drawText_nothing acc empty_page) by reflexivity. reflexivity.
Qed.

Lemma organize_loop_index (src : PDFDocument) (i : Z) (p : PDFPage)
    (rest : list Action) (acc : PDFDocument) :
  pageAt src i = Some p ->
  organize_loop src (index i :: rest) acc = organize_loop src rest (acc ++ [p]).
Proof.
  intros H. cbn [organize_loop]. rewrite (copyPages_one _ _ _ H). reflexivity.
Qed.

Lemma organize_loop_index_undefined (src : PDFDocument) (i : Z)
    (rest : list Action) (acc : PDFDocument) :
  pageAt src i = None ->
  exists e, organize_loop src (index i :: rest) acc = Throw e.
Proof.
  intros H. cbn [organize_loop].
  destruct (copyPages_one_undefined _ _ H) as [e ->]. eauto.
Qed.

Lemma organize_loop_valid (src : PDFDocument) (actions : list Action) :
  Forall (valid_action src) actions ->
  forall acc, exists out,
    organize_loop src actions acc = Normal (acc ++ out)
    /\ Forall2 (contributes src) actions out.
Proof.
  induction 1 as [| a rest Ha _ IH]; intros acc.
  - exists []. rewrite app_nil_r. split; [reflexivity | constructor].
  - destruct a as [| i].
    + destruct (IH (acc ++ [empty_page])) as (out & Hrun & Hout).
      exists (empty_page :: out). rewrite organize_loop_blank, Hrun.
      rewrite <- app_assoc. split; [reflexivity |].
      constructor; [reflexivity | assumption].
    + destruct (pageAt_in_range src i Ha) as [p Hp].
      destruct (IH (acc ++ [p])) as (out & Hrun & Hout).
      exists (p :: out). rewrite (organize_loop_index _ _ _ _ _ Hp), Hrun.
      rewrite <- app_assoc. split; [reflexivity |].
      constructor; assumption.
Qed.

Lemma organize_loop_out_of_range (src : PDFDocument) (actions : list Action) :
  Exists (fun a => exists i, a = index i /\ ~ in_range src i) actions ->
  forall acc, exists e, organize_loop src actions acc = Throw e.
Proof.
  induction actions as [| a rest IH]; intros Hex acc.
  - inversion Hex.
  - destruct a as [| j].
    + rewrite organize_loop_blank. apply IH.
      inversion Hex as [? ? (i & Hi & _) | ]; subst; [discriminate | assumption].
    + destruct (pageAt src j) as [p |] eqn:Hp.
      * rewrite (organize_loop_index _ _ _ _ _ Hp). apply IH.
        inversion Hex as [? ? (i & Hi & Hout) | ]; subst; [| assumption].
        injection Hi as <-. exfalso. eauto using pageAt_Some_in_range.
      * apply organize_loop_index_undefined. assumption.
Qed.

(* --------------------------------------------------------------------- *)
(* The loop of /rotate-pdf                                               *)
(* --------------------------------------------------------------------- *)

Lemma normalizeAngle_mod (rotation : Z) :
  JS.normalizeAngle rotation = rotation mod 360.
Proof.
  unfold JS.normalizeAngle.
  pose proof (Z.rem_bound_abs rotation 360 ltac:(lia)) as Habs.
  pose proof (Z.quot_rem' rotation 360) as Hqr.
  rewrite Z.rem_mod_nonneg by lia.
  replace (Z.rem rotation 360 + 360)
    with (rotation + (1 - Z.quot rotation 360) * 360) by lia.
  apply Z_mod_plus_full.
Qed.

Lemma normalizeAngle_bound (rotation : Z) : 0 <= JS.normalizeAngle rotation < 360.
Proof. rewrite normalizeAngle_mod. apply Z.mod_pos_bound. lia. Qed.

Lemma rotate_loop_skip (src : PDFDocument) (i r : Z)
    (rest : list RotateAction) (acc : PDFDocument) :
  getPageCount src <= i ->
  rotate_loop src (mkRotate i r :: rest) acc = rotate_loop src rest acc.
Proof.
  intros H. cbn [rotate_loop].
  apply Z.leb_le in H. rewrite H. reflexivity.
Qed.

Lemma rotate_loop_reach (src : PDFDocument) (i r : Z)
    (rest : list RotateAction) (acc : PDFDocument) :
  i < getPageCount src ->
  rotate_loop src (mkRotate i r :: rest) acc =
  match copyPages src [i] with
  | Normal copied =>
      match apply_rotation (first_of copied) r with
      | Normal copiedPage => rotate_loop src rest (addPage_opt acc copiedPage)
      | Throw e => Throw e
      end
  | Throw e => Throw e
  end.
Proof.
  intros H. cbn [rotate_loop].
  apply Z.leb_gt in H. rewrite H. reflexivity.
Qed.

Lemma rotate_loop_negative (src : PDFDocument) (i r : Z)
    (rest : list RotateAction) (acc : PDFDocument) :
  i < 0 -> exists e, rotate_loop src (mkRotate i r :: rest) acc = Throw e.
Proof.
  intros H. rewrite rotate_loop_reach by (unfold getPageCount; lia).
  destruct (copyPages_one_undefined src i) as [e ->]; [| eauto].
  apply pageAt_out_of_range. unfold in_range. lia.
Qed.

Lemma rotate_loop_zero (src : PDFDocument) (i r : Z) (p : PDFPage)
    (rest : list RotateAction) (acc : PDFDocument) :
  pageAt src i = Some p -> JS.normalizeAngle r = 0 ->
  rotate_loop src (mkRotate i r :: rest) acc = rotate_loop src rest (acc ++ [p]).
Proof.
  intros Hp Hz. pose proof (pageAt_Some_in_range _ _ _ Hp) as [_ Hhi].
  rewrite rotate_loop_reach by assumption.
  rewrite (copyPages_one _ _ _ Hp). unfold apply_rotation. rewrite Hz.
  reflexivity.
Qed.

Lemma rotate_loop_quarter (src : PDFDocument) (i r : Z) (p : PDFPage)
    (rest : list RotateAction) (acc : PDFDocument) :
  pageAt src i = Some p ->
  JS.normalizeAngle r <> 0 -> Z.rem (JS.normalizeAngle r) 90 = 0 ->
  rotate_loop src (mkRotate i r :: rest) acc =
  rotate_loop src rest (acc ++ [mkPage (contents p) (mediaBox p) (JS.normalizeAngle r)]).
Proof.
  intros Hp Hnz Hq. pose proof (pageAt_Some_in_range _ _ _ Hp) as [_ Hhi].
  rewrite rotate_loop_reach by assumption.
  rewrite (copyPages_one _ _ _ Hp). unfold apply_rotation, setRotation.
  apply Z.eqb_neq in Hnz. rewrite Hnz. cbn [first_of head].
  rewrite Hq. reflexivity.
Qed.

Lemma rotate_loop_oblique (src : PDFDocument) (i r : Z) (p : PDFPage)
    (rest : list RotateAction) (acc : PDFDocument) :
  pageAt src i = Some p -> Z.rem (JS.normalizeAngle r) 90 <> 0 ->
  exists e, rotate_loop src (mkRotate i r :: rest) acc = Throw e.
Proof.
  intros Hp Hq. pose proof (pageAt_Some_in_range _ _ _ Hp) as [_ Hhi].
  rewrite rotate_loop_reach by assumption.
  rewrite (copyPages_one _ _ _ Hp). unfold apply_rotation, setRotation.
  assert (Hnz : JS.normalizeAngle r <> 0) by (intros E; apply Hq; rewrite E; reflexivity).
  apply Z.eqb_neq in Hnz. rewrite Hnz. cbn [first_of head].
  apply Z.eqb_neq in Hq. rewrite Hq. eauto.
Qed.

(* --------------------------------------------------------------------- *)
(* Running /organize-pdf and /rotate-pdf                                 *)
(* --------------------------------------------------------------------- *)

(** Unfold the operations of the monad and of the world, then reduce the
    projections of the world. *)
Ltac run_ops :=
  unfold parse_actions, PDFDocument_load, the_file, lift, throw, fresh,
    fs.readFileSync, fs.writeFileSync, fs.unlinkSync, fs.statSync_size,
    fs.existsSync, res_send;
  unfold mbind, M_bind, mret, M_ret;
  cbn [files sent].

Section PdfHandlers.

Variable load : bytes -> option PDFDocument.
Variable save : PDFDocument -> bytes.

Lemma unlink_if_exists_present (fsys : gmap string bytes) (r : option Response)
    (p : string) (data : bytes) :
  fsys !! p = Some data ->
  unlink_if_exists (Some p) (mkWorld fsys r) = (Normal tt, mkWorld (delete p fsys) r).
Proof.
  intros H. unfold unlink_if_exists. run_ops. rewrite H.
  rewrite bool_decide_eq_true_2 by eauto. cbn [files sent]. rewrite H.
  reflexivity.
Qed.

(** A well-formed request to /organize-pdf: either the loop completes
    and the handler writes the result, deletes the upload and answers
    200, or the loop throws and the handler deletes the upload and
    answers 500. *)
Lemma organize_pdf_run (req : PdfRequest Action) (now : Z)
    (fsys : gmap string bytes) (f : File) (actions : list Action)
    (data : bytes) (originalPdf : PDFDocument) :
  pdf_file req = Some f ->
  pdf_actions req = Parsed actions ->
  fsys !! path f = Some data ->
  load data = Some originalPdf ->
  organize_pdf load save req now (fresh fsys) =
  match organize_loop originalPdf actions create with
  | Normal newPdf =>
      (Normal tt,
       mkWorld
         (delete (path f)
            (<[path_join "compressed" (output_name "organized_" now ".pdf") := save newPdf]> fsys))
         (Some (mkResponse 200
                  (JsonDownload (download_url (output_name "organized_" now ".pdf"))
                                (Z.of_nat (length (save newPdf)))))))
  | Throw e =>
      (Normal tt,
       mkWorld (delete (path f) fsys)
               (Some (mkResponse 500 (JsonError "Failed to organize PDF."))))
  end.
Proof.
  intros Hf Ha Hdata Hload.
  unfold organize_pdf, try_catch. rewrite Hf, Ha. cbn [fmap option_fmap option_map is_absent].
  run_ops. rewrite Hdata, Hload. cbn [files sent].
  destruct (organize_loop originalPdf actions create) as [newPdf | e].
  - fold (output_name "organized_" now ".pdf").
    rewrite lookup_insert. case_decide as Hsame.
    + reflexivity.
    + rewrite Hdata. reflexivity.
  - rewrite (unlink_if_exists_present _ _ _ _ Hdata).
    reflexivity.
Qed.

Lemma rotate_pdf_run (req : PdfRequest RotateAction) (now : Z)
    (fsys : gmap string bytes) (f : File) (actions : list RotateAction)
    (data : bytes) (originalPdf : PDFDocument) :
  pdf_file req = Some f ->
  pdf_actions req = Parsed actions ->
  fsys !! path f = Some data ->
  load data = Some originalPdf ->
  rotate_pdf load save req now (fresh fsys) =
  match rotate_loop originalPdf actions create with
  | Normal newPdf =>
      if (length (save newPdf) =? 0)%nat
      then
        (Normal tt,
         mkWorld (delete (path f) fsys)
                 (Some (mkResponse 500 (JsonError "Failed to rotate PDF."))))
      else
        (Normal tt,
         mkWorld
           (delete (path f)
              (<[path_join "compressed" (output_name "rotated_" now ".pdf") := save newPdf]> fsys))
           (Some (mkResponse 200
                    (JsonDownload (download_url (output_name "rotated_" now ".pdf"))
                                  (Z.of_nat (length (save newPdf)))))))
  | Throw e =>
      (Normal tt,
       mkWorld (delete (path f) fsys)
               (Some (mkResponse 500 (JsonError "Failed to rotate PDF."))))
  end.
Proof.
  intros Hf Ha Hdata Hload.
  unfold rotate_pdf, try_catch. rewrite Hf, Ha. cbn [fmap option_fmap option_map is_absent].
  run_ops. rewrite Hdata, Hload. cbn [files sent].
  destruct (rotate_loop originalPdf actions create) as [newPdf | e].
  - destruct (length (save newPdf) =? 0)%nat.
    + rewrite (unlink_if_exists_present _ _ _ _ Hdata). reflexivity.
    + fold (output_name "rotated_" now ".pdf"). cbn [files sent].
      rewrite lookup_insert. case_decide as Hsame.
      * reflexivity.
      * rewrite Hdata. reflexivity.
  - rewrite (unlink_if_exists_present _ _ _ _ Hdata).
    reflexivity.
Qed.

End PdfHandlers.

(* --------------------------------------------------------------------- *)
(* /organize-pdf                                                         *)
(* --------------------------------------------------------------------- *)






(** C4, as the code has it.  When some action of /organize-pdf is an
    index that names no page of the source, the loop throws: the handler
    writes no output file, deletes the upload and answers 500. *)
Theorem organize_out_of_range_aborts
    (load : bytes -> option PDFDocument) (save : PDFDocument -> bytes)
    (req : PdfRequest Action) (now : Z) (fsys : gmap string bytes)
    (f : File) (actions : list Action) (data : bytes) (originalPdf : PDFDocument) :
  pdf_file req = Some f ->
  pdf_actions req = Parsed actions ->
  fsys !! path f = Some data ->
  load data = Some originalPdf ->
  Exists (fun a => exists i, a = index i /\ ~ in_range originalPdf i) actions ->
  organize_pdf load save req now (fresh fsys) =
  (Normal tt,
   mkWorld (delete (path f) fsys)
           (Some (mkResponse 500 (JsonError "Failed to organize PDF.")))).
Proof.
  intros Hf Ha Hdata Hload Hbad.
  rewrite (organize_pdf_run load save req now fsys f actions data originalPdf) by assumption.
  destruct (organize_loop_out_of_range originalPdf actions Hbad create) as [e ->].
  reflexivity.
Qed.

Lemma organize_out_of_range_aborts_witness :
  organize_pdf demo_load demo_save
    (mkPdfRequest (Some upload_pdf) (Parsed [index 2; index 7; index 0]))
    1700000000123 (fresh {[ path upload_pdf := five_pages ]}) =
  (Normal tt,
   mkWorld (delete (path upload_pdf) {[ path upload_pdf := five_pages ]})
           (Some (mkResponse 500 (JsonError "Failed to organize PDF.")))).
Proof.
  apply (organize_out_of_range_aborts demo_load demo_save
           (mkPdfRequest (Some upload_pdf) (Parsed [index 2; index 7; index 0]))
           1700000000123 {[ path upload_pdf := five_pages ]} upload_pdf
           [index 2; index 7; index 0] five_pages five_page_doc).
  - reflexivity.
  - reflexivity.
  - vm_compute. reflexivity.
  - reflexivity.
  - apply Exists_cons_tl, Exists_cons_hd. exists 7. split; [reflexivity |].
    unfold in_range. vm_compute. intros [_ H]. discriminate H.
Defined.

(** C4, as the specification words it, fails: with five source pages and
    the actions [7, 0] the bad index is not skipped.  The loop throws, no
    output file is written and the answer is 500, although index 0 alone
    gives a one-page document. *)
Lemma organize_out_of_range_not_skipped :
  (exists e, organize_loop five_page_doc
               [index 7; index 0] create = Throw e)
  /\ organize_loop five_page_doc
       [index 0] create = Normal [mkPage "a" A4 0]
  /\ organize_pdf demo_load demo_save
       (mkPdfRequest (Some upload_pdf) (Parsed [index 7; index 0]))
       1700000000123 (fresh {[ path upload_pdf := five_pages ]}) =
     (Normal tt, mkWorld ∅ (Some (mkResponse 500 (JsonError "Failed to organize PDF.")))).
Proof.
  split; [eexists; vm_compute; reflexivity |].
  split; vm_compute; reflexivity.
Qed.


(** The same holds for every request that reaches the writer. *)
Lemma organize_pdf_empty_buffer
    (load : bytes -> option PDFDocument) (save : PDFDocument -> bytes)
    (req : PdfRequest Action) (now : Z) (fsys : gmap string bytes)
    (f : File) (actions : list Action) (data : bytes)
    (originalPdf newPdf : PDFDocument) :
  pdf_file req = Some f ->
  pdf_actions req = Parsed actions ->
  fsys !! path f = Some data ->
  load data = Some originalPdf ->
  organize_loop originalPdf actions create = Normal newPdf ->
  save newPdf = [] ->
  sent (organize_pdf load save req now (fresh fsys)).2 =
  Some (mkResponse 200
          (JsonDownload (download_url (output_name "organized_" now ".pdf")) 0)).
Proof.
  intros Hf Ha Hdata Hload Hrun Hsave.
  rewrite (organize_pdf_run load save req now fsys f actions data originalPdf) by assumption.
  rewrite Hrun, Hsave. reflexivity.
Qed.

(* --------------------------------------------------------------------- *)
(* /rotate-pdf                                                           *)
(* --------------------------------------------------------------------- *)

Example normalizeAngle_minus_90 : JS.normalizeAngle (-90) = 270.
Proof. reflexivity. Qed.
Example normalizeAngle_450 : JS.normalizeAngle 450 = 90.
Proof. reflexivity. Qed.
Example normalizeAngle_360 : JS.normalizeAngle 360 = 0.
Proof. reflexivity. Qed.

(** An empty buffer from the writer makes /rotate-pdf answer 500. *)
Lemma rotate_pdf_empty_buffer
    (load : bytes -> option PDFDocument) (save : PDFDocument -> bytes)
    (req : PdfRequest RotateAction) (now : Z) (fsys : gmap string bytes)
    (f : File) (actions : list RotateAction) (data : bytes)
    (originalPdf newPdf : PDFDocument) :
  pdf_file req = Some f ->
  pdf_actions req = Parsed actions ->
  fsys !! path f = Some data ->
  load data = Some originalPdf ->
  rotate_loop originalPdf actions create = Normal newPdf ->
  save newPdf = [] ->
  rotate_pdf load save req now (fresh fsys) =
  (Normal tt,
   mkWorld (delete (path f) fsys)
           (Some (mkResponse 500 (JsonError "Failed to rotate PDF.")))).
Proof.
  intros Hf Ha Hdata Hload Hrun Hsave.
  rewrite (rotate_pdf_run load save req now fsys f actions data originalPdf) by assumption.
  rewrite Hrun, Hsave. reflexivity.
Qed.



(** The output of the loop when every action is accepted. *)
Lemma rotate_loop_all_accepted (src : PDFDocument) (actions : list RotateAction) :
  Forall (accepted src) actions ->
  forall acc,
    rotate_loop src actions acc = Normal (acc ++ omap (rotate_output src) actions).
Proof.
  induction 1 as [| [i r] rest Hacc _ IH]; intros acc.
  - simpl. rewrite app_nil_r. reflexivity.
  - cbn [omap list_omap]. unfold rotate_output at 1. cbn [originalIndex rotation].
    destruct (pageAt src i) as [p |] eqn:Hp; cbn [fmap option_fmap option_map].
    + pose proof (pageAt_Some_in_range _ _ _ Hp) as [Hlo Hhi].
      destruct Hacc as [Hhigh | [_ Hq]]; cbn [originalIndex rotation] in *; [lia |].
      unfold rotated. destruct (JS.normalizeAngle r =? 0) eqn:Hz.
      * apply Z.eqb_eq in Hz. rewrite (rotate_loop_zero _ _ _ _ _ _ Hp Hz), IH.
        rewrite <- app_assoc. reflexivity.
      * apply Z.eqb_neq in Hz. rewrite (rotate_loop_quarter _ _ _ _ _ _ Hp Hz Hq), IH.
        rewrite <- app_assoc. reflexivity.
    + rewrite rotate_loop_skip; [apply IH |].
      destruct (Z.le_gt_cases (getPageCount src) i) as [Hge | Hlt]; [assumption |].
      destruct Hacc as [Hhigh | [Hlo _]]; cbn [originalIndex] in *; [assumption |].
      destruct (pageAt_in_range src i) as [p Hp']; [split; assumption | congruence].
Qed.

(** C2, as the code has it.  For a request whose first action names the
    source page [p] and whose other actions the loop accepts, with
    angle = ((rotation % 360) + 360) % 360, which is rotation mod 360.
    When the angle is a multiple of 90 the loop completes and its first
    output page has the drawing and size of [p]; its rotation is the one
    of [p] when the angle is 0, and the angle itself otherwise, whatever
    rotation [p] had.  The handler then writes the document and answers
    200, provided the writer returns at least one byte.  When the angle
    is not a multiple of 90 the loop throws and the handler deletes the
    upload, writes nothing and answers 500. *)
Theorem rotate_action_rotation
    (load : bytes -> option PDFDocument) (save : PDFDocument -> bytes)
    (req : PdfRequest RotateAction) (now : Z) (fsys : gmap string bytes)
    (f : File) (data : bytes) (src : PDFDocument)
    (i : Z) (p : PDFPage) (rotation : Z) (rest : list RotateAction) :
  pdf_file req = Some f ->
  pdf_actions req = Parsed (mkRotate i rotation :: rest) ->
  fsys !! path f = Some data ->
  load data = Some src ->
  pageAt src i = Some p ->
  Forall (accepted src) rest ->
  let angle := JS.normalizeAngle rotation in
  let output := rotated p rotation :: omap (rotate_output src) rest in
  angle = rotation mod 360
  /\ (Z.rem angle 90 = 0 ->
      rotate_loop src (mkRotate i rotation :: rest) create = Normal output)
  /\ (angle = 0 -> rotated p rotation = p)
  /\ (angle <> 0 ->
      rotated p rotation = mkPage (contents p) (mediaBox p) angle)
  /\ (Z.rem angle 90 = 0 -> save output <> [] ->
      rotate_pdf load save req now (fresh fsys) =
      (Normal tt,
       mkWorld
         (delete (path f)
            (<[path_join "compressed" (output_name "rotated_" now ".pdf") := save output]> fsys))
         (Some (mkResponse 200
                  (JsonDownload (download_url (output_name "rotated_" now ".pdf"))
                                (Z.of_nat (length (save output))))))))
  /\ (Z.rem angle 90 <> 0 ->
      (exists e, rotate_loop src (mkRotate i rotation :: rest) create = Throw e)
      /\ rotate_pdf load save req now (fresh fsys) =
         (Normal tt,
          mkWorld (delete (path f) fsys)
                  (Some (mkResponse 500 (JsonError "Failed to rotate PDF."))))).
Proof.
  intros Hf Ha Hdata Hload Hp Hrest angle output.
  pose proof (pageAt_Some_in_range _ _ _ Hp) as [Hlo Hhi].
  assert (Hloop : Z.rem angle 90 = 0 ->
            rotate_loop src (mkRotate i rotation :: rest) create = Normal output).
  { intros Hq.
    rewrite (rotate_loop_all_accepted src (mkRotate i rotation :: rest)).
    - cbn [omap list_omap].
      change (rotate_output src (mkRotate i rotation))
        with ((fun q => rotated q rotation) <$> pageAt src i).
      rewrite Hp. reflexivity.
    - constructor; [right; split; assumption | assumption]. }
  split; [apply normalizeAngle_mod |].
  split; [exact Hloop |].
  split; [intros Hz; unfold rotated; fold angle; rewrite Hz; reflexivity |].
  split.
  { intros Hnz. unfold rotated. fold angle.
    apply Z.eqb_neq in Hnz. rewrite Hnz. reflexivity. }
  split.
  - intros Hq Hsave.
    rewrite (rotate_pdf_run load save req now fsys f _ data src Hf Ha Hdata Hload).
    rewrite (Hloop Hq).
    destruct (length (save output) =? 0)%nat eqn:Hlen; [| reflexivity].
    apply Nat.eqb_eq in Hlen. apply length_zero_iff_nil in Hlen. contradiction.
  - intros Hq.
    destruct (rotate_loop_oblique src i rotation p rest create Hp Hq) as [e He].
    split; [eauto |].
    rewrite (rotate_pdf_run load save req now fsys f _ data src Hf Ha Hdata Hload).
    rewrite He. reflexivity.
Qed.

Lemma rotate_action_rotation_witness :
  rotate_loop [mkPage "a" A4 90] [mkRotate 0 (-90); mkRotate 7 45; mkRotate 0 360] create =
    Normal [mkPage "a" A4 270; mkPage "a" A4 90]
  /\ rotate_pdf (fun data => Some [mkPage "a" A4 90]) demo_save
       (mkPdfRequest (Some upload_pdf)
          (Parsed [mkRotate 0 (-90); mkRotate 7 45; mkRotate 0 360]))
       1700000000123 (fresh {[ path upload_pdf := five_pages ]}) =
     (Normal tt,
      mkWorld
        (delete (path upload_pdf)
           (<[path_join "compressed" (output_name "rotated_" 1700000000123 ".pdf") :=
                demo_save [mkPage "a" A4 270; mkPage "a" A4 90]]>
              {[ path upload_pdf := five_pages ]}))
        (Some (mkResponse 200
                 (JsonDownload (download_url (output_name "rotated_" 1700000000123 ".pdf"))
                               (Z.of_nat (length (demo_save [mkPage "a" A4 270; mkPage "a" A4 90]))))))).
Proof.
  destruct (rotate_action_rotation (fun data => Some [mkPage "a" A4 90]) demo_save
              (mkPdfRequest (Some upload_pdf)
                 (Parsed [mkRotate 0 (-90); mkRotate 7 45; mkRotate 0 360]))
              1700000000123 {[ path upload_pdf := five_pages ]} upload_pdf five_pages
              [mkPage "a" A4 90] 0 (mkPage "a" A4 90) (-90)
              [mkRotate 7 45; mkRotate 0 360])
    as (_ & Hloop & _ & _ & H200 & _).
  - reflexivity.
  - reflexivity.
  - vm_compute. reflexivity.
  - reflexivity.
  - reflexivity.
  - repeat constructor; unfold accepted; cbn [originalIndex rotation];
      vm_compute; intuition discriminate.
  - split; [exact (Hloop eq_refl) |].
    apply H200; [reflexivity | discriminate].
Defined.

(** C2, as the specification words it, fails.  A source page that is
    already rotated by 90 and rotation = 360: the normalized angle is 0 but
    the output page keeps rotation 90.  A rotation of 45: no output page,
    the loop throws. *)
Lemma rotation_not_always_normalized_angle :
  (exists p, rotate_loop [mkPage "a" A4 90] [mkRotate 0 360] create = Normal [p]
             /\ Rotate p = 90 /\ JS.normalizeAngle 360 = 0
             /\ Rotate p <> JS.normalizeAngle 360)
  /\ (exists e, rotate_loop [mkPage "a" A4 0] [mkRotate 0 45] create = Throw e).
Proof.
  split.
  - exists (mkPage "a" A4 90). repeat split; discriminate.
  - eexists. vm_compute. reflexivity.
Qed.

(** When no index is negative and every normalized angle is a multiple of
    90, the loop completes, and the output is made of the pages of the
    actions that name a source page, in the order of the list; the other
    actions add nothing. *)
Lemma rotate_loop_quarter_turns (src : PDFDocument) (actions : list RotateAction) :
  Forall quarter_turn actions ->
  forall acc,
    rotate_loop src actions acc = Normal (acc ++ omap (rotate_output src) actions).
Proof.
  induction 1 as [| [i r] rest [Hi Hq] _ IH]; intros acc.
  - simpl. rewrite app_nil_r. reflexivity.
  - cbn [originalIndex rotation] in Hi, Hq.
    cbn [omap list_omap]. unfold rotate_output at 1. cbn [originalIndex rotation].
    destruct (pageAt src i) as [p |] eqn:Hp; cbn [fmap option_fmap option_map].
    + unfold rotated. destruct (JS.normalizeAngle r =? 0) eqn:Hz.
      * apply Z.eqb_eq in Hz. rewrite (rotate_loop_zero _ _ _ _ _ _ Hp Hz), IH.
        rewrite <- app_assoc. reflexivity.
      * apply Z.eqb_neq in Hz. rewrite (rotate_loop_quarter _ _ _ _ _ _ Hp Hz Hq), IH.
        rewrite <- app_assoc. reflexivity.
    + rewrite rotate_loop_skip; [apply IH |].
      destruct (Z.le_gt_cases (getPageCount src) i) as [Hge | Hlt]; [assumption |].
      destruct (pageAt_in_range src i) as [p Hp']; [split; assumption | congruence].
Qed.

(** C3, at a negative index: the check of the loop lets it through,
    copyPages throws, and the handler deletes the upload, writes no output
    file and answers 500; the later action on page 0 is not processed. *)
Theorem rotate_negative_index_fails :
  (exists e, rotate_loop five_page_doc [mkRotate (-1) 0; mkRotate 0 90] create = Throw e)
  /\ rotate_pdf demo_load demo_save
       (mkPdfRequest (Some upload_pdf) (Parsed [mkRotate (-1) 0; mkRotate 0 90]))
       1700000000123 (fresh {[ path upload_pdf := five_pages ]}) =
     (Normal tt, mkWorld ∅ (Some (mkResponse 500 (JsonError "Failed to rotate PDF.")))).
Proof.
  split; [eexists; vm_compute; reflexivity |].
  vm_compute. reflexivity.
Qed.

(** An index at or above the page count is skipped and the rest is
    processed: here the output holds page 2 turned by 90 and page 0
    turned by 270. *)
Example rotate_high_index_skipped :
  rotate_loop five_page_doc [mkRotate 2 450; mkRotate 9 0; mkRotate 0 (-90)] create =
  Normal [mkPage "c" A4 90; mkPage "a" A4 270].
Proof. reflexivity. Qed.

(* --------------------------------------------------------------------- *)
(* The upload on the failure paths                                       *)
(* --------------------------------------------------------------------- *)

(** /upload, when sharp rejects the image: the catch block answers 500
    and leaves every file where it was. *)
Lemma upload_sharp_failure
    (sharp : ImageFormat -> Z -> bytes -> option bytes)
    (req : UploadRequest) (fsys : gmap string bytes) (f : File) (data : bytes) :
  up_file req = Some f ->
  mimetype f ∈ allowedTypes ->
  fsys !! path f = Some data ->
  (forall fmt, sharp fmt (image_quality (up_param req)) data = None) ->
  upload sharp req (fresh fsys) =
  (Normal tt, mkWorld fsys (Some (mkResponse 500 (Text "Image compression failed.")))).
Proof.
  intros Hf Hmime Hdata Hfail. unfold upload. rewrite Hf. run_ops.
  rewrite bool_decide_eq_true_2 by assumption. cbn [negb].
  unfold try_catch. run_ops.
  destruct (bool_decide (mimetype f = "image/png"));
    unfold sharp_toFile; cbn [files sent]; rewrite Hdata, Hfail; reflexivity.
Qed.

(** /upload, when the type is not allowed: the upload is deleted and the
    answer is 400. *)
Lemma upload_rejected_type
    (sharp : ImageFormat -> Z -> bytes -> option bytes)
    (req : UploadRequest) (fsys : gmap string bytes) (f : File) (data : bytes) :
  up_file req = Some f ->
  mimetype f ∉ allowedTypes ->
  fsys !! path f = Some data ->
  upload sharp req (fresh fsys) =
  (Normal tt,
   mkWorld (delete (path f) fsys)
           (Some (mkResponse 400 (Text "Only JPG and PNG formats are allowed.")))).
Proof.
  intros Hf Hmime Hdata. unfold upload. rewrite Hf. run_ops.
  rewrite bool_decide_eq_false_2 by assumption. cbn [negb].
  run_ops. rewrite Hdata. reflexivity.
Qed.

(** /compress-video, when ffmpeg fails: the callback answers 500 before
    it reaches the unlink. *)
Lemma compress_video_ffmpeg_failure
    (ffmpeg : Z -> bytes -> option bytes)
    (req : UploadRequest) (now : Z) (fsys : gmap string bytes) (f : File) (data : bytes) :
  up_file req = Some f ->
  fsys !! path f = Some data ->
  ffmpeg (JS.or (JS.parseInt (up_param req)) 28) data = None ->
  compress_video ffmpeg req now (fresh fsys) =
  (Normal tt, mkWorld fsys (Some (mkResponse 500 (Text "Video compression failed.")))).
Proof.
  intros Hf Hdata Hfail. unfold compress_video. rewrite Hf. run_ops.
  unfold exec_ffmpeg. cbn [files sent]. rewrite Hdata, Hfail. reflexivity.
Qed.

(** /organize-pdf, when the actions field is missing: the answer is 400
    and the upload stays. *)
Lemma organize_missing_actions
    (load : bytes -> option PDFDocument) (save : PDFDocument -> bytes)
    (req : PdfRequest Action) (now : Z) (fsys : gmap string bytes) (f : File) :
  pdf_file req = Some f ->
  pdf_actions req = Absent ->
  organize_pdf load save req now (fresh fsys) =
  (Normal tt, mkWorld fsys (Some (mkResponse 400 (JsonError "Missing file or actions.")))).
Proof.
  intros Hf Ha. unfold organize_pdf, try_catch. rewrite Hf, Ha.
  cbn [fmap option_fmap option_map is_absent]. run_ops. reflexivity.
Qed.

(** C8, at three requests that end with the upload still in uploads/: an
    image that sharp rejects (500), a video on which ffmpeg fails (500), a
    PDF sent to /organize-pdf without actions (400). *)
Theorem failed_request_leaves_upload :
  upload failing_sharp (mkUploadRequest (Some upload_jpg) (Some "70"))
    (fresh {[ path upload_jpg := five_pages ]}) =
  (Normal tt,
   mkWorld {[ "uploads/1700000000001.jpg" := five_pages ]}
           (Some (mkResponse 500 (Text "Image compression failed."))))
  /\ compress_video failing_ffmpeg (mkUploadRequest (Some upload_mp4) None)
       1700000000123 (fresh {[ path upload_mp4 := five_pages ]}) =
     (Normal tt,
      mkWorld {[ "uploads/1700000000002.mp4" := five_pages ]}
              (Some (mkResponse 500 (Text "Video compression failed."))))
  /\ organize_pdf demo_load demo_save (mkPdfRequest (Some upload_pdf) Absent)
       1700000000123 (fresh {[ path upload_pdf := five_pages ]}) =
     (Normal tt,
      mkWorld {[ "uploads/1700000000000.pdf" := five_pages ]}
              (Some (mkResponse 400 (JsonError "Missing file or actions.")))).
Proof. repeat split; vm_compute; reflexivity. Qed.

(* --------------------------------------------------------------------- *)
(* /compress-pdf: the method                                             *)
(* --------------------------------------------------------------------- *)

Lemma or_default_cases (n : JS.number) (d : Z) :
  (n = None /\ JS.or n d = d) \/ (n = Some 0 /\ JS.or n d = d)
  \/ (exists v, n = Some v /\ v <> 0 /\ JS.or n d = v).
Proof.
  destruct n as [v |]; [| left; split; reflexivity].
  unfold JS.or. destruct (v =? 0) eqn:E.
  - apply Z.eqb_eq in E. subst v. right; left. split; reflexivity.
  - apply Z.eqb_neq in E. right; right. exists v. repeat split; assumption.
Qed.

Ltac decide_leb :=
  repeat match goal with
    | |- context [?a <=? ?b] =>
        let E := fresh "E" in
        destruct (a <=? b) eqn:E;
        [apply Z.leb_le in E | apply Z.leb_gt in E]
    end.

(** C9, as the code has it.  The extreme method is taken exactly when the
    parameter parses to an integer >= 90.  A parameter that is missing,
    not numeric, or parses to 0 is replaced by 60 and gives Ghostscript
    with /ebook.  Every other parsed integer n below 90 gives Ghostscript
    with /screen for n >= 80, /ebook for 60-79, /printer for 40-59 and
    /prepress below 40. *)
Theorem compress_pdf_method_cases (body_compression : option string) :
  ((exists dpi quality, compress_pdf_method body_compression = extreme dpi quality)
   <-> (exists n, JS.parseInt body_compression = Some n /\ 90 <= n))
  /\ (JS.parseInt body_compression = None ->
      pdf_compression body_compression = 60
      /\ compress_pdf_method body_compression = standard "/ebook")
  /\ (JS.parseInt body_compression = Some 0 ->
      pdf_compression body_compression = 60
      /\ compress_pdf_method body_compression = standard "/ebook")
  /\ (forall n, JS.parseInt body_compression = Some n -> n <> 0 ->
      (90 <= n -> compress_pdf_method body_compression = extreme 50 30)
      /\ (80 <= n < 90 -> compress_pdf_method body_compression = standard "/screen")
      /\ (60 <= n < 80 -> compress_pdf_method body_compression = standard "/ebook")
      /\ (40 <= n < 60 -> compress_pdf_method body_compression = standard "/printer")
      /\ (n < 40 -> compress_pdf_method body_compression = standard "/prepress")).
Proof.
  unfold compress_pdf_method, pdf_compression, gs_setting.
  destruct (or_default_cases (JS.parseInt body_compression) 60)
    as [[Hp ->] | [[Hp ->] | (v & Hp & Hv & ->)]]; rewrite Hp.
  - split; [simpl; split; intros (? & ? & ?); discriminate |].
    split; [intros _; split; reflexivity |].
    split; [discriminate | intros; discriminate].
  - split.
    + simpl. split; [intros (? & ? & ?); discriminate |].
      intros (n & Hn & Hle). injection Hn as <-. lia.
    + split; [discriminate |]. split; [intros _; split; reflexivity |].
      intros n Hn Hnz. injection Hn as <-. lia.
  - split.
    + split.
      * intros (dpi & q & H). exists v. split; [reflexivity |].
        destruct (90 <=? v) eqn:E; [apply Z.leb_le in E; assumption | discriminate].
      * intros (n & Hn & Hle). injection Hn as <-.
        apply Z.leb_le in Hle. rewrite Hle. eauto.
    + split; [discriminate |]. split; [intros H; injection H as ->; lia |].
      intros n Hn Hnz. injection Hn as <-.
      repeat split; intros; decide_leb; try lia; reflexivity.
Qed.

(** C9, as the specification words it, fails at the parameter "0": it
    parses to the integer 0, below 40, and the method is Ghostscript with
    /ebook, not /prepress. *)
Lemma compress_pdf_zero_is_ebook :
  JS.parseInt (Some "0") = Some 0
  /\ compress_pdf_method (Some "0") = standard "/ebook"
  /\ claimed_compress_pdf_method (Some "0") = standard "/prepress"
  /\ compress_pdf_method (Some "0") <> claimed_compress_pdf_method (Some "0").
Proof. repeat split; discriminate. Qed.

(* --------------------------------------------------------------------- *)
(* /upload: the quality given to sharp                                   *)
(* --------------------------------------------------------------------- *)

Lemma image_quality_lower_bound (body_compression : option string) :
  10 <= image_quality body_compression.
Proof. unfold image_quality. lia. Qed.

(** The handler never asks the encoder for a quality below 10: an encoder
    that refuses those qualities gives the same run. *)
Lemma upload_quality_from_10
    (sharp : ImageFormat -> Z -> bytes -> option bytes)
    (req : UploadRequest) (w : World) :
  upload (from_10 sharp) req w = upload sharp req w.
Proof.
  pose proof (image_quality_lower_bound (up_param req)) as Hq.
  apply Z.leb_le in Hq.
  unfold upload. destruct (up_file req) as [f |]; [| reflexivity].
  run_ops. destruct (negb (bool_decide (mimetype f ∈ allowedTypes))); [reflexivity |].
  unfold try_catch. run_ops.
  destruct (bool_decide (mimetype f = "image/png"));
    unfold sharp_toFile, from_10; rewrite Hq; reflexivity.
Qed.

Lemma toDouble_exact (n : Z) : Z.abs n < 2 ^ 53 -> JS.toDouble n = n.
Proof.
  intros Hn. unfold JS.toDouble.
  assert (Hk : Z.log2 (Z.abs n) < 53).
  { destruct (Z.eq_dec (Z.abs n) 0) as [-> | Hnz]; [reflexivity |].
    apply Z.log2_lt_pow2; lia. }
  apply Z.ltb_lt in Hk. rewrite Hk. reflexivity.
Qed.

Lemma toDouble_nonpos (n : Z) : n <= 0 -> JS.toDouble n <= 0.
Proof.
  intros Hn. unfold JS.toDouble.
  destruct (Z.log2 (Z.abs n) <? 53); [assumption |].
  set (s := Z.log2 (Z.abs n) - 52).
  set (q := Z.shiftr (Z.abs n) s).
  assert (Hq : 0 <= q) by (apply Z.shiftr_nonneg; lia).
  match goal with |- Z.sgn n * Z.shiftl ?q' s <= 0 =>
    assert (Hq' : 0 <= Z.shiftl q' s)
      by (apply Z.shiftl_nonneg; destruct (_ || _); lia)
  end.
  pose proof (Z.sgn_nonpos n) as [_ Hs]. specialize (Hs Hn). nia.
Qed.

Lemma toDouble_large (n : Z) : 2 ^ 53 <= n -> 2 ^ 53 <= JS.toDouble n.
Proof.
  intros Hn. unfold JS.toDouble.
  assert (Hpos : 0 < n) by lia.
  rewrite (Z.abs_eq n) by lia.
  assert (Hk : 53 <= Z.log2 n) by (apply Z.log2_le_pow2; lia).
  destruct (Z.log2 n <? 53) eqn:E; [apply Z.ltb_lt in E; lia |].
  set (k := Z.log2 n) in *. set (s := k - 52).
  assert (Hs : 0 < s) by (unfold s; lia).
  pose proof (Z.log2_spec n Hpos) as [Hlow _]. fold k in Hlow.
  rewrite Z.sgn_pos by lia. rewrite Z.mul_1_l.
  rewrite Z.shiftl_mul_pow2 by lia.
  assert (Hq : 2 ^ 52 <= Z.shiftr n s).
  { rewrite Z.shiftr_div_pow2 by lia.
    apply Z.div_le_lower_bound; [apply Z.pow_pos_nonneg; lia |].
    rewrite <- Z.pow_add_r by lia. replace (s + 52) with k by (unfold s; lia).
    assumption. }
  assert (Hpow : 2 <= 2 ^ s).
  { change 2 with (2 ^ 1) at 1. apply Z.pow_le_mono_r; lia. }
  destruct (_ || _); nia.
Qed.

(** C10, as the code has it.  The quality is never below 10, and the
    encoder is never asked for less.  It is 40 when the parameter is
    missing, not numeric, or parses to 0.  When the parameter parses to
    an integer n other than 0 it is max(10, 100 - n), the subtraction
    being the one of JavaScript numbers, which is exact whenever
    |100 - n| < 2^53. *)
Theorem image_quality_cases (body_compression : option string) :
  10 <= image_quality body_compression
  /\ (forall sharp f w,
        upload (from_10 sharp) (mkUploadRequest f body_compression) w =
        upload sharp (mkUploadRequest f body_compression) w)
  /\ (JS.parseInt body_compression = None -> image_quality body_compression = 40)
  /\ (JS.parseInt body_compression = Some 0 -> image_quality body_compression = 40)
  /\ (forall n, JS.parseInt body_compression = Some n -> n <> 0 ->
      Z.abs n < 2 ^ 1024 ->
      image_quality body_compression = Z.max 10 (JS.toDouble (100 - n)))
  /\ (forall n, JS.parseInt body_compression = Some n -> n <> 0 ->
      Z.abs (100 - n) < 2 ^ 53 ->
      image_quality body_compression = Z.max 10 (100 - n)).
Proof.
  split; [apply image_quality_lower_bound |].
  split; [intros; apply upload_quality_from_10 |].
  unfold image_quality, image_compression.
  destruct (or_default_cases (JS.parseInt body_compression) 60)
    as [[Hp ->] | [[Hp ->] | (v & Hp & Hv & ->)]]; rewrite Hp.
  - split; [reflexivity |]. split; [discriminate |].
    split; intros; discriminate.
  - split; [discriminate |]. split; [reflexivity |].
    split; intros n Hn Hnz; injection Hn as <-; lia.
  - split; [discriminate |]. split; [intros H; injection H as ->; lia |].
    split; intros n Hn _ Hrange; injection Hn as <-; [reflexivity |].
    rewrite toDouble_exact by assumption. reflexivity.
Qed.

(** C10, as the specification words it, fails at the parameter "0": it is
    present and numeric, so the quality would be max(10, 100 - 0) = 100,
    and the handler computes 40. *)
Lemma image_quality_zero_is_40 :
  JS.parseInt (Some "0") = Some 0
  /\ image_quality (Some "0") = 40
  /\ claimed_image_quality (Some "0") = 100
  /\ image_quality (Some "0") <> claimed_image_quality (Some "0").
Proof. repeat split; discriminate. Qed.

(* ===================================================================== *)
(* Further properties of the handlers                                    *)
(* ===================================================================== *)

(* --------------------------------------------------------------------- *)
(* Angles, qualities and names                                           *)
(* --------------------------------------------------------------------- *)

(** X1.  The normalized angle lies in [0, 360), is unchanged by whole
    turns added to the rotation in either direction, and normalizing
    again changes nothing. *)
Theorem normalizeAngle_whole_turns (rotation k : Z) :
  0 <= JS.normalizeAngle rotation < 360
  /\ JS.normalizeAngle (rotation + 360 * k) = JS.normalizeAngle rotation
  /\ JS.normalizeAngle (JS.normalizeAngle rotation) = JS.normalizeAngle rotation.
Proof.
  split; [apply normalizeAngle_bound |]. split.
  - rewrite !normalizeAngle_mod. rewrite (Z.mul_comm 360 k). apply Z_mod_plus_full.
  - rewrite (normalizeAngle_mod (JS.normalizeAngle rotation)).
    apply Z.mod_small, normalizeAngle_bound.
Qed.

(** X2.  The quality that /upload gives to sharp is between 10 and 100
    when the compression parameter is missing, not numeric, or parses to
    an integer from 0 to 2^53; it is 10 whenever the parameter parses to
    90 or more; and a negative integer n gives a quality above 100, which
    is 100 - n whenever 100 - n < 2^53. *)
Theorem image_quality_range (body_compression : option string) :
  (forall n, JS.parseInt body_compression = Some n -> n < 0 ->
     100 < image_quality body_compression
     /\ (100 - n < 2 ^ 53 -> image_quality body_compression = 100 - n))
  /\ (forall n, JS.parseInt body_compression = Some n -> 90 <= n ->
     image_quality body_compression = 10)
  /\ (JS.parseInt body_compression = None
      \/ (exists n, JS.parseInt body_compression = Some n /\ 0 <= n <= 2 ^ 53) ->
      10 <= image_quality body_compression <= 100).
Proof.
  assert (Hneg : forall v, v < 0 ->
            100 < Z.max 10 (JS.toDouble (100 - v))
            /\ (100 - v < 2 ^ 53 -> Z.max 10 (JS.toDouble (100 - v)) = 100 - v)).
  { intros v Hv. destruct (Z.lt_ge_cases (100 - v) (2 ^ 53)) as [Hs | Hl].
    - rewrite toDouble_exact by lia. lia.
    - pose proof (toDouble_large (100 - v) Hl). lia. }
  assert (Hhigh : forall v, 90 <= v -> Z.max 10 (JS.toDouble (100 - v)) = 10).
  { intros v Hv. destruct (Z.lt_ge_cases (- 2 ^ 53) (100 - v)) as [Hs | Hl].
    - rewrite toDouble_exact by lia. lia.
    - pose proof (toDouble_nonpos (100 - v) ltac:(lia)). lia. }
  assert (Hmid : forall v, 0 <= v <= 2 ^ 53 -> 10 <= Z.max 10 (JS.toDouble (100 - v)) <= 100).
  { intros v Hv. destruct (Z.lt_ge_cases (- 2 ^ 53) (100 - v)) as [Hs | Hl].
    - rewrite toDouble_exact by lia. lia.
    - pose proof (toDouble_nonpos (100 - v) ltac:(lia)). lia. }
  unfold image_quality, image_compression.
  destruct (or_default_cases (JS.parseInt body_compression) 60)
    as [[Hp ->] | [[Hp ->] | (v & Hp & Hv & ->)]]; rewrite Hp.
  - split; [intros; discriminate |]. split; [intros; discriminate |].
    intros _. apply (Hmid 60). lia.
  - split; [intros n Hn; injection Hn as <-; lia |].
    split; [intros n Hn; injection Hn as <-; lia |].
    intros _. apply (Hmid 60). lia.
  - split; [intros n Hn; injection Hn as <-; apply Hneg |].
    split; [intros n Hn; injection Hn as <-; apply Hhigh |].
    intros [H | (n & Hn & Hle)]; [discriminate | injection Hn as <-; apply Hmid; assumption].
Qed.

Lemma string_app_length (s t : string) :
  String.length (s +:+ t) = (String.length s + String.length t)%nat.
Proof. induction s as [| c s IH]; simpl; [reflexivity | rewrite IH; reflexivity]. Qed.

Lemma string_app_inj_r (s1 s2 t : string) : s1 +:+ t = s2 +:+ t -> s1 = s2.
Proof.
  revert s2. induction s1 as [| c s1 IH]; intros [| d s2] H.
  - reflexivity.
  - apply (f_equal String.length) in H.
    rewrite !string_app_length in H. simpl in H. lia.
  - apply (f_equal String.length) in H.
    rewrite !string_app_length in H. simpl in H. lia.
  - change (String c (s1 +:+ t) = String d (s2 +:+ t)) in H.
    injection H as -> H. f_equal. apply IH. assumption.
Qed.

(** X3.  The result of a handler that names its output after the clock
    (organized_<now>.pdf and the like) has a different path and a
    different download URL for every different instant. *)
Theorem output_name_distinct (prefix ext : string) (now1 now2 : Z) :
  now1 <> now2 ->
  path_join "compressed" (output_name prefix now1 ext)
    <> path_join "compressed" (output_name prefix now2 ext)
  /\ download_url (output_name prefix now1 ext)
    <> download_url (output_name prefix now2 ext).
Proof.
  intros Hne.
  assert (Hname : output_name prefix now1 ext <> output_name prefix now2 ext).
  { unfold output_name. intros H.
    apply String.app_inj in H. apply string_app_inj_r in H.
    apply pretty_Z_inj in H. contradiction. }
  split; intros H; apply Hname.
  - unfold path_join in H. apply String.app_inj in H.
    apply String.app_inj in H. assumption.
  - unfold download_url in H. apply String.app_inj in H. assumption.
Qed.

Lemma output_name_distinct_witness :
  path_join "compressed" (output_name "organized_" 1700000000123 ".pdf")
    <> path_join "compressed" (output_name "organized_" 1700000000124 ".pdf")
  /\ download_url (output_name "organized_" 1700000000123 ".pdf")
    <> download_url (output_name "organized_" 1700000000124 ".pdf").
Proof.
  apply (output_name_distinct "organized_" ".pdf" 1700000000123 1700000000124).
  lia.
Defined.

(* --------------------------------------------------------------------- *)
(* The two page loops, in general                                        *)
(* --------------------------------------------------------------------- *)

Lemma organize_loop_completes (src : PDFDocument) (actions : list Action) :
  forall acc out,
    organize_loop src actions acc = Normal out -> Forall (valid_action src) actions.
Proof.
  induction actions as [| a rest IH]; intros acc out Hrun; [constructor |].
  destruct a as [| i].
  - rewrite organize_loop_blank in Hrun. constructor; [exact I | eauto].
  - destruct (pageAt src i) as [p |] eqn:Hp.
    + rewrite (organize_loop_index _ _ _ _ _ Hp) in Hrun.
      constructor; [eapply pageAt_Some_in_range; eassumption | eauto].
    + destruct (organize_loop_index_undefined src i rest acc Hp) as [e He].
      congruence.
Qed.

(** X4.  The loop of /organize-pdf completes exactly when every action is
    a blank marker or an in-range index; a single index without a page
    makes the whole loop throw, wherever it stands in the list. *)
Theorem organize_loop_completes_iff (src : PDFDocument) (actions : list Action) :
  (exists out, organize_loop src actions create = Normal out)
  <-> Forall (valid_action src) actions.
Proof.
  split.
  - intros [out Hrun]. eapply organize_loop_completes; eassumption.
  - intros Hvalid.
    destruct (organize_loop_valid src actions Hvalid create) as (out & Hrun & _).
    eauto.
Qed.

Lemma rotate_loop_rejected (src : PDFDocument) (i r : Z)
    (rest : list RotateAction) (acc : PDFDocument) :
  ~ accepted src (mkRotate i r) ->
  exists e, rotate_loop src (mkRotate i r :: rest) acc = Throw e.
Proof.
  unfold accepted. cbn [originalIndex rotation]. intros Hno.
  destruct (Z.lt_ge_cases i 0) as [Hneg | Hpos].
  - apply rotate_loop_negative. assumption.
  - destruct (pageAt_in_range src i) as [p Hp]; [unfold in_range; lia |].
    eapply rotate_loop_oblique; [eassumption |]. intros Hq. apply Hno. auto.
Qed.

(** X5.  When every action of /rotate-pdf is accepted (an index at or
    above the page count, or an in-range index with a normalized angle
    that is a multiple of 90), the loop completes and its output is, in
    list order, one page for each action that names a source page; the
    actions with too high an index add nothing. *)
Theorem rotate_loop_accepted (src : PDFDocument) (actions : list RotateAction) :
  Forall (accepted src) actions ->
  forall acc,
    rotate_loop src actions acc = Normal (acc ++ omap (rotate_output src) actions).
Proof.
  induction 1 as [| [i r] rest Hacc _ IH]; intros acc.
  - simpl. rewrite app_nil_r. reflexivity.
  - cbn [omap list_omap]. unfold rotate_output at 1. cbn [originalIndex rotation].
    destruct (pageAt src i) as [p |] eqn:Hp; cbn [fmap option_fmap option_map].
    + pose proof (pageAt_Some_in_range _ _ _ Hp) as [Hlo Hhi].
      destruct Hacc as [Hhigh | [_ Hq]]; cbn [originalIndex rotation] in *; [lia |].
      unfold rotated. destruct (JS.normalizeAngle r =? 0) eqn:Hz.
      * apply Z.eqb_eq in Hz. rewrite (rotate_loop_zero _ _ _ _ _ _ Hp Hz), IH.
        rewrite <- app_assoc. reflexivity.
      * apply Z.eqb_neq in Hz. rewrite (rotate_loop_quarter _ _ _ _ _ _ Hp Hz Hq), IH.
        rewrite <- app_assoc. reflexivity.
    + rewrite rotate_loop_skip; [apply IH |].
      destruct (Z.le_gt_cases (getPageCount src) i) as [Hge | Hlt]; [assumption |].
      destruct Hacc as [Hhigh | [Hlo _]]; cbn [originalIndex] in *; [assumption |].
      destruct (pageAt_in_range src i) as [p Hp']; [split; assumption | congruence].
Qed.

Lemma rotate_loop_accepted_witness :
  rotate_loop five_page_doc [mkRotate 2 450; mkRotate 9 45; mkRotate 0 (-90)] [] =
  Normal ([] ++ omap (rotate_output five_page_doc)
                  [mkRotate 2 450; mkRotate 9 45; mkRotate 0 (-90)]).
Proof.
  apply (rotate_loop_accepted five_page_doc
           [mkRotate 2 450; mkRotate 9 45; mkRotate 0 (-90)]).
  repeat constructor; unfold accepted; cbn [originalIndex rotation];
    vm_compute; intuition discriminate.
Defined.

Lemma rotate_loop_completes (src : PDFDocument) (actions : list RotateAction) :
  forall acc out,
    rotate_loop src actions acc = Normal out -> Forall (accepted src) actions.
Proof.
  induction actions as [| [i r] rest IH]; intros acc out Hrun; [constructor |].
  destruct (Z.le_gt_cases (getPageCount src) i) as [Hge | Hlt].
  - rewrite rotate_loop_skip in Hrun by assumption.
    constructor; [left; assumption | eauto].
  - destruct (Z.lt_ge_cases i 0) as [Hneg | Hpos].
    { destruct (rotate_loop_negative src i r rest acc Hneg) as [e He]. congruence. }
    destruct (pageAt_in_range src i) as [p Hp]; [unfold in_range; lia |].
    destruct (Z.eq_dec (Z.rem (JS.normalizeAngle r) 90) 0) as [Hq | Hq].
    + constructor; [right; split; assumption |].
      destruct (Z.eq_dec (JS.normalizeAngle r) 0) as [Hz | Hz].
      * rewrite (rotate_loop_zero _ _ _ _ _ _ Hp Hz) in Hrun. eauto.
      * rewrite (rotate_loop_quarter _ _ _ _ _ _ Hp Hz Hq) in Hrun. eauto.
    + destruct (rotate_loop_oblique src i r p rest acc Hp Hq) as [e He]. congruence.
Qed.

(** X6.  The loop of /rotate-pdf completes exactly when every action is
    accepted: one negative index, or one in-range index whose normalized
    angle is not a multiple of 90, makes the whole loop throw, while an
    index at or above the page count never does, whatever its rotation. *)
Theorem rotate_loop_completes_iff (src : PDFDocument) (actions : list RotateAction) :
  (exists out, rotate_loop src actions create = Normal out)
  <-> Forall (accepted src) actions.
Proof.
  split.
  - intros [out Hrun]. eapply rotate_loop_completes; eassumption.
  - intros Hacc. rewrite (rotate_loop_accepted src actions Hacc create). eauto.
Qed.

Lemma omap_length_le {A B : Type} (f : A -> option B) (l : list A) :
  (length (omap f l) <= length l)%nat.
Proof.
  induction l as [| x l IH]; [reflexivity |].
  cbn [omap list_omap]. destruct (f x); simpl; lia.
Qed.

Lemma rotated_turned_copy (p : PDFPage) (r : Z) :
  Z.rem (JS.normalizeAngle r) 90 = 0 -> turned_copy p (rotated p r).
Proof.
  intros Hq. unfold turned_copy, rotated.
  destruct (JS.normalizeAngle r =? 0) eqn:Hz; [auto |].
  apply Z.eqb_neq in Hz. cbn [contents mediaBox Rotate].
  split; [reflexivity |]. split; [reflexivity |]. right.
  pose proof (normalizeAngle_bound r) as Hb.
  pose proof (Z.quot_rem' (JS.normalizeAngle r) 90) as Hqr.
  rewrite Hq in Hqr. lia.
Qed.

(** X7.  Whenever the loop of /rotate-pdf completes, the output has at
    most as many pages as there are actions, and every output page is a
    copy of some source page: same drawing, same size, and a rotation that
    is either the one of that source page or 90, 180 or 270. *)
Theorem rotate_loop_output (src : PDFDocument) (actions : list RotateAction)
    (out : PDFDocument) :
  rotate_loop src actions create = Normal out ->
  (length out <= length actions)%nat
  /\ Forall (fun q => exists p, p ∈ src /\ turned_copy p q) out.
Proof.
  intros Hrun.
  pose proof (rotate_loop_completes src actions create out Hrun) as Hacc.
  rewrite (rotate_loop_accepted src actions Hacc create) in Hrun.
  injection Hrun as <-. cbn [app]. split.
  - apply omap_length_le.
  - induction Hacc as [| [i r] rest Ha _ IH]; [constructor |].
    cbn [omap list_omap]. unfold rotate_output at 1. cbn [originalIndex rotation].
    destruct (pageAt src i) as [p |] eqn:Hp; cbn [fmap option_fmap option_map];
      [| exact IH].
    constructor; [| exact IH]. exists p. split.
    + unfold pageAt in Hp.
      destruct ((0 <=? i) && (i <? getPageCount src)); [| discriminate].
      eapply list_elem_of_lookup_2; eassumption.
    + apply rotated_turned_copy.
      pose proof (pageAt_Some_in_range _ _ _ Hp) as [Hlo Hhi].
      destruct Ha as [Hhigh | [_ Hq]]; cbn [originalIndex rotation] in *; [lia | assumption].
Qed.

Lemma rotate_loop_output_witness :
  (length [mkPage "c" A4 90; mkPage "a" A4 270] <= length [mkRotate 2 450; mkRotate 9 0; mkRotate 0 (-90)])%nat
  /\ Forall (fun q => exists p, p ∈ five_page_doc /\ turned_copy p q)
       [mkPage "c" A4 90; mkPage "a" A4 270].
Proof.
  apply (rotate_loop_output five_page_doc [mkRotate 2 450; mkRotate 9 0; mkRotate 0 (-90)]).
  reflexivity.
Defined.

(* --------------------------------------------------------------------- *)
(* Every run of /organize-pdf and /rotate-pdf                            *)
(* --------------------------------------------------------------------- *)

Section PdfOutcomes.

Variable load : bytes -> option PDFDocument.
Variable save : PDFDocument -> bytes.

Lemma unlink_if_exists_run (fsys : gmap string bytes) (r : option Response) (p : string) :
  unlink_if_exists (Some p) (mkWorld fsys r) = (Normal tt, mkWorld (delete p fsys) r).
Proof.
  destruct (fsys !! p) as [data |] eqn:Hp.
  - eapply unlink_if_exists_present. eassumption.
  - unfold unlink_if_exists. run_ops. rewrite Hp.
    rewrite bool_decide_eq_false_2 by (intros [? ?]; discriminate).
    rewrite (delete_id _ _ Hp). reflexivity.
Qed.

(** Every run of /organize-pdf ends in one of three ways. *)
Lemma organize_pdf_outcome (req : PdfRequest Action) (now : Z) (fsys : gmap string bytes) :
  (organize_pdf load save req now (fresh fsys) =
     (Normal tt, mkWorld fsys (Some (mkResponse 400 (JsonError "Missing file or actions."))))
   /\ (pdf_file req = None \/ pdf_actions req = Absent))
  \/ (exists f,
       organize_pdf load save req now (fresh fsys) =
         (Normal tt, mkWorld (delete (path f) fsys)
                       (Some (mkResponse 500 (JsonError "Failed to organize PDF."))))
       /\ pdf_file req = Some f /\ pdf_actions req <> Absent)
  \/ (exists f actions data originalPdf newPdf,
       organize_pdf load save req now (fresh fsys) =
         (Normal tt,
          mkWorld
            (delete (path f)
               (<[path_join "compressed" (output_name "organized_" now ".pdf") := save newPdf]> fsys))
            (Some (mkResponse 200
                     (JsonDownload (download_url (output_name "organized_" now ".pdf"))
                                   (Z.of_nat (length (save newPdf)))))))
       /\ pdf_file req = Some f /\ pdf_actions req = Parsed actions
       /\ fsys !! path f = Some data /\ load data = Some originalPdf
       /\ organize_loop originalPdf actions create = Normal newPdf).
Proof.
  destruct (pdf_file req) as [f |] eqn:Hf.
  2:{ left. split; [| left; reflexivity].
      unfold organize_pdf, try_catch. rewrite Hf. reflexivity. }
  destruct (pdf_actions req) as [| | actions] eqn:Ha.
  - left. split; [| right; reflexivity].
    apply organize_missing_actions with (f := f); assumption.
  - right; left. exists f. split; [| split; [reflexivity | discriminate]].
    unfold organize_pdf, try_catch. rewrite Hf, Ha.
    cbn [fmap option_fmap option_map is_absent]. run_ops.
    rewrite unlink_if_exists_run. reflexivity.
  - destruct (fsys !! path f) as [data |] eqn:Hdata.
    2:{ right; left. exists f. split; [| split; [reflexivity | discriminate]].
        unfold organize_pdf, try_catch. rewrite Hf, Ha.
        cbn [fmap option_fmap option_map is_absent]. run_ops. rewrite Hdata.
        rewrite unlink_if_exists_run. reflexivity. }
    destruct (load data) as [originalPdf |] eqn:Hload.
    2:{ right; left. exists f. split; [| split; [reflexivity | discriminate]].
        unfold organize_pdf, try_catch. rewrite Hf, Ha.
        cbn [fmap option_fmap option_map is_absent]. run_ops. rewrite Hdata, Hload.
        cbn [files sent]. rewrite unlink_if_exists_run. reflexivity. }
    pose proof (organize_pdf_run load save req now fsys f actions data originalPdf
                  Hf Ha Hdata Hload) as Hrun.
    destruct (organize_loop originalPdf actions create) as [newPdf | e] eqn:Hloop.
    + right; right. exists f, actions, data, originalPdf, newPdf. auto 10.
    + right; left. exists f. split; [assumption | split; [reflexivity | discriminate]].
Qed.

(** Every run of /rotate-pdf ends in one of three ways. *)
Lemma rotate_pdf_outcome (req : PdfRequest RotateAction) (now : Z) (fsys : gmap string bytes) :
  (rotate_pdf load save req now (fresh fsys) =
     (Normal tt, mkWorld fsys (Some (mkResponse 400 (JsonError "Missing file or actions."))))
   /\ (pdf_file req = None \/ pdf_actions req = Absent))
  \/ (exists f,
       rotate_pdf load save req now (fresh fsys) =
         (Normal tt, mkWorld (delete (path f) fsys)
                       (Some (mkResponse 500 (JsonError "Failed to rotate PDF."))))
       /\ pdf_file req = Some f /\ pdf_actions req <> Absent)
  \/ (exists f actions data originalPdf newPdf,
       rotate_pdf load save req now (fresh fsys) =
         (Normal tt,
          mkWorld
            (delete (path f)
               (<[path_join "compressed" (output_name "rotated_" now ".pdf") := save newPdf]> fsys))
            (Some (mkResponse 200
                     (JsonDownload (download_url (output_name "rotated_" now ".pdf"))
                                   (Z.of_nat (length (save newPdf)))))))
       /\ pdf_file req = Some f /\ pdf_actions req = Parsed actions
       /\ fsys !! path f = Some data /\ load data = Some originalPdf
       /\ rotate_loop originalPdf actions create = Normal newPdf
       /\ save newPdf <> []).
Proof.
  destruct (pdf_file req) as [f |] eqn:Hf.
  2:{ left. split; [| left; reflexivity].
      unfold rotate_pdf, try_catch. rewrite Hf. reflexivity. }
  destruct (pdf_actions req) as [| | actions] eqn:Ha.
  - left. split; [| right; reflexivity].
    unfold rotate_pdf, try_catch. rewrite Hf, Ha.
    cbn [fmap option_fmap option_map is_absent]. run_ops. reflexivity.
  - right; left. exists f. split; [| split; [reflexivity | discriminate]].
    unfold rotate_pdf, try_catch. rewrite Hf, Ha.
    cbn [fmap option_fmap option_map is_absent]. run_ops.
    rewrite unlink_if_exists_run. reflexivity.
  - destruct (fsys !! path f) as [data |] eqn:Hdata.
    2:{ right; left. exists f. split; [| split; [reflexivity | discriminate]].
        unfold rotate_pdf, try_catch. rewrite Hf, Ha.
        cbn [fmap option_fmap option_map is_absent]. run_ops. rewrite Hdata.
        rewrite unlink_if_exists_run. reflexivity. }
    destruct (load data) as [originalPdf |] eqn:Hload.
    2:{ right; left. exists f. split; [| split; [reflexivity | discriminate]].
        unfold rotate_pdf, try_catch. rewrite Hf, Ha.
        cbn [fmap option_fmap option_map is_absent]. run_ops. rewrite Hdata, Hload.
        cbn [files sent]. rewrite unlink_if_exists_run. reflexivity. }
    pose proof (rotate_pdf_run load save req now fsys f actions data originalPdf
                  Hf Ha Hdata Hload) as Hrun.
    destruct (rotate_loop originalPdf actions create) as [newPdf | e] eqn:Hloop.
    + destruct (length (save newPdf) =? 0)%nat eqn:Hlen.
      * right; left. exists f. split; [assumption | split; [reflexivity | discriminate]].
      * right; right. exists f, actions, data, originalPdf, newPdf.
        repeat split; try assumption.
        intros Hsave. rewrite Hsave in Hlen. discriminate.
    + right; left. exists f. split; [assumption | split; [reflexivity | discriminate]].
Qed.

End PdfOutcomes.

Lemma organize_valid_actions_pages_run
    (load : bytes -> option PDFDocument) (save : PDFDocument -> bytes)
    (req : PdfRequest Action) (now : Z) (fsys : gmap string bytes)
    (f : File) (actions : list Action) (data : bytes) (originalPdf : PDFDocument) :
  pdf_file req = Some f ->
  pdf_actions req = Parsed actions ->
  fsys !! path f = Some data ->
  load data = Some originalPdf ->
  Forall (valid_action originalPdf) actions ->
  exists newPdf,
    organize_pdf load save req now (fresh fsys) =
    (Normal tt,
     mkWorld
       (delete (path f)
          (<[path_join "compressed" (output_name "organized_" now ".pdf") := save newPdf]> fsys))
       (Some (mkResponse 200
                (JsonDownload (download_url (output_name "organized_" now ".pdf"))
                              (Z.of_nat (length (save newPdf))))))).
Proof.
  intros Hf Ha Hdata Hload Hvalid.
  destruct (organize_loop_valid originalPdf actions Hvalid create) as (newPdf & Hrun & _).
  exists newPdf.
  rewrite (organize_pdf_run load save req now fsys f actions data originalPdf) by assumption.
  rewrite Hrun. reflexivity.
Qed.

(** X8.  /organize-pdf never lets an exception escape and always sends
    exactly one response, with status 200, 400 or 500: whatever the
    request, the files on disk, the parser and the writer. *)
Theorem organize_pdf_always_answers
    (load : bytes -> option PDFDocument) (save : PDFDocument -> bytes)
    (req : PdfRequest Action) (now : Z) (fsys : gmap string bytes) :
  exists w r,
    organize_pdf load save req now (fresh fsys) = (Normal tt, w)
    /\ sent w = Some r
    /\ (status r = 200 \/ status r = 400 \/ status r = 500).
Proof.
  destruct (organize_pdf_outcome load save req now fsys)
    as [[-> _] | [(f & -> & _) | (f & actions & data & src & newPdf & -> & _)]];
    eexists _, _; (split; [reflexivity |]); (split; [reflexivity |]);
    cbn [status]; auto.
Qed.

(** X9.  Once /organize-pdf has a file and an actions field, the upload
    is gone when the handler ends, on the 200 path and on every 500 path
    (undecodable actions, unreadable PDF, bad index). *)
Theorem organize_pdf_deletes_upload
    (load : bytes -> option PDFDocument) (save : PDFDocument -> bytes)
    (req : PdfRequest Action) (now : Z) (fsys : gmap string bytes) (f : File) :
  pdf_file req = Some f ->
  pdf_actions req <> Absent ->
  files (organize_pdf load save req now (fresh fsys)).2 !! path f = None.
Proof.
  intros Hf Ha.
  destruct (organize_pdf_outcome load save req now fsys)
    as [[_ [H | H]] | [(f' & -> & Hf' & _) | (f' & actions & data & src & newPdf & -> & Hf' & _)]].
  - congruence.
  - contradiction.
  - assert (f' = f) as -> by congruence. cbn [snd files]. apply lookup_delete_eq.
  - assert (f' = f) as -> by congruence. cbn [snd files]. apply lookup_delete_eq.
Qed.

Lemma organize_pdf_deletes_upload_witness :
  files (organize_pdf demo_load demo_save
           (mkPdfRequest (Some upload_pdf) (Parsed [index 2; index 7]))
           1700000000123 (fresh {[ path upload_pdf := five_pages ]})).2
    !! path upload_pdf = None.
Proof.
  apply (organize_pdf_deletes_upload demo_load demo_save
           (mkPdfRequest (Some upload_pdf) (Parsed [index 2; index 7]))
           1700000000123 {[ path upload_pdf := five_pages ]} upload_pdf).
  - reflexivity.
  - discriminate.
Defined.

(** X10.  /organize-pdf touches two paths at most, the upload and its own
    output file: every other file is the same after the handler as
    before, whatever the outcome. *)
Theorem organize_pdf_other_files
    (load : bytes -> option PDFDocument) (save : PDFDocument -> bytes)
    (req : PdfRequest Action) (now : Z) (fsys : gmap string bytes) (p : string) :
  (forall f, pdf_file req = Some f -> p <> path f) ->
  p <> path_join "compressed" (output_name "organized_" now ".pdf") ->
  files (organize_pdf load save req now (fresh fsys)).2 !! p = fsys !! p.
Proof.
  intros Hin Hout.
  destruct (organize_pdf_outcome load save req now fsys)
    as [[-> _] | [(f & -> & Hf & _) | (f & actions & data & src & newPdf & -> & Hf & _)]];
    cbn [snd files].
  - reflexivity.
  - apply lookup_delete_ne. intros E. apply (Hin f Hf). congruence.
  - rewrite lookup_delete_ne by (intros E; apply (Hin f Hf); congruence).
    apply lookup_insert_ne. congruence.
Qed.

Lemma organize_pdf_other_files_witness :
  files (organize_pdf demo_load demo_save
           (mkPdfRequest (Some upload_pdf) (Parsed [index 2; blank]))
           1700000000123
           (fresh (<[ "compressed/organized_1699999999999.pdf" := [Byte.x25] ]>
                     {[ path upload_pdf := five_pages ]}))).2
    !! "compressed/organized_1699999999999.pdf"
  = (<[ "compressed/organized_1699999999999.pdf" := [Byte.x25] ]>
       {[ path upload_pdf := five_pages ]} : gmap string bytes)
    !! "compressed/organized_1699999999999.pdf".
Proof.
  apply (organize_pdf_other_files demo_load demo_save
           (mkPdfRequest (Some upload_pdf) (Parsed [index 2; blank]))
           1700000000123).
  - intros f Hf. injection Hf as <-. vm_compute. discriminate.
  - vm_compute. discriminate.
Defined.

(** X11.  /organize-pdf answers 200 exactly when the request has a file
    that is on disk and that pdf-lib can read, and an actions list in
    which every entry is a blank marker or an in-range index. *)
Theorem organize_pdf_200_iff
    (load : bytes -> option PDFDocument) (save : PDFDocument -> bytes)
    (req : PdfRequest Action) (now : Z) (fsys : gmap string bytes) :
  (exists b, sent (organize_pdf load save req now (fresh fsys)).2 = Some (mkResponse 200 b))
  <-> (exists f actions data originalPdf,
         pdf_file req = Some f /\ pdf_actions req = Parsed actions
         /\ fsys !! path f = Some data /\ load data = Some originalPdf
         /\ Forall (valid_action originalPdf) actions).
Proof.
  split.
  - intros [b Hb].
    destruct (organize_pdf_outcome load save req now fsys)
      as [[H _] | [(f & H & _) | (f & actions & data & src & newPdf & _ & Hf & Ha & Hd & Hl & Hloop)]].
    + rewrite H in Hb. discriminate.
    + rewrite H in Hb. discriminate.
    + exists f, actions, data, src. repeat split; try assumption.
      eapply organize_loop_completes; eassumption.
  - intros (f & actions & data & src & Hf & Ha & Hd & Hl & Hvalid).
    destruct (organize_valid_actions_pages_run load save req now fsys f actions data src)
      as (newPdf & ->); try assumption.
    eauto.
Qed.

(** X12.  /rotate-pdf never lets an exception escape and always sends
    exactly one response, with status 200, 400 or 500. *)
Theorem rotate_pdf_always_answers
    (load : bytes -> option PDFDocument) (save : PDFDocument -> bytes)
    (req : PdfRequest RotateAction) (now : Z) (fsys : gmap string bytes) :
  exists w r,
    rotate_pdf load save req now (fresh fsys) = (Normal tt, w)
    /\ sent w = Some r
    /\ (status r = 200 \/ status r = 400 \/ status r = 500).
Proof.
  destruct (rotate_pdf_outcome load save req now fsys)
    as [[-> _] | [(f & -> & _) | (f & actions & data & src & newPdf & -> & _)]];
    eexists _, _; (split; [reflexivity |]); (split; [reflexivity |]);
    cbn [status]; auto.
Qed.

(** X13.  Once /rotate-pdf has a file and an actions field, the upload is
    gone when the handler ends, whatever the outcome; and no file other
    than the upload and the output file is touched. *)
Theorem rotate_pdf_files
    (load : bytes -> option PDFDocument) (save : PDFDocument -> bytes)
    (req : PdfRequest RotateAction) (now : Z) (fsys : gmap string bytes) (f : File) :
  pdf_file req = Some f ->
  pdf_actions req <> Absent ->
  files (rotate_pdf load save req now (fresh fsys)).2 !! path f = None
  /\ forall p, p <> path f ->
       p <> path_join "compressed" (output_name "rotated_" now ".pdf") ->
       files (rotate_pdf load save req now (fresh fsys)).2 !! p = fsys !! p.
Proof.
  intros Hf Ha.
  destruct (rotate_pdf_outcome load save req now fsys)
    as [[_ [H | H]] | [(f' & -> & Hf' & _) | (f' & actions & data & src & newPdf & -> & Hf' & _)]].
  - congruence.
  - contradiction.
  - assert (f' = f) as -> by congruence. cbn [snd files].
    split; [apply lookup_delete_eq |].
    intros p Hp _. apply lookup_delete_ne. congruence.
  - assert (f' = f) as -> by congruence. cbn [snd files].
    split; [apply lookup_delete_eq |].
    intros p Hp Hout. rewrite lookup_delete_ne by congruence.
    apply lookup_insert_ne. congruence.
Qed.

Lemma rotate_pdf_files_witness :
  files (rotate_pdf demo_load demo_save
           (mkPdfRequest (Some upload_pdf) (Parsed [mkRotate 0 45]))
           1700000000123 (fresh {[ path upload_pdf := five_pages ]})).2
    !! path upload_pdf = None
  /\ forall p, p <> path upload_pdf ->
       p <> path_join "compressed" (output_name "rotated_" 1700000000123 ".pdf") ->
       files (rotate_pdf demo_load demo_save
                (mkPdfRequest (Some upload_pdf) (Parsed [mkRotate 0 45]))
                1700000000123 (fresh {[ path upload_pdf := five_pages ]})).2 !! p
       = ({[ path upload_pdf := five_pages ]} : gmap string bytes) !! p.
Proof.
  apply (rotate_pdf_files demo_load demo_save
           (mkPdfRequest (Some upload_pdf) (Parsed [mkRotate 0 45]))
           1700000000123 {[ path upload_pdf := five_pages ]} upload_pdf).
  - reflexivity.
  - discriminate.
Defined.

(** X14.  /rotate-pdf answers 200 exactly when the request has a file
    that is on disk and that pdf-lib can read, every action is accepted
    (index at or above the page count, or in range with a normalized
    angle that is a multiple of 90), and the writer returns at least one
    byte for the pages of the actions that name a source page. *)
Theorem rotate_pdf_200_iff
    (load : bytes -> option PDFDocument) (save : PDFDocument -> bytes)
    (req : PdfRequest RotateAction) (now : Z) (fsys : gmap string bytes) :
  (exists b, sent (rotate_pdf load save req now (fresh fsys)).2 = Some (mkResponse 200 b))
  <-> (exists f actions data originalPdf,
         pdf_file req = Some f /\ pdf_actions req = Parsed actions
         /\ fsys !! path f = Some data /\ load data = Some originalPdf
         /\ Forall (accepted originalPdf) actions
         /\ save (omap (rotate_output originalPdf) actions) <> []).
Proof.
  split.
  - intros [b Hb].
    destruct (rotate_pdf_outcome load save req now fsys)
      as [[H _] | [(f & H & _) |
          (f & actions & data & src & newPdf & _ & Hf & Ha & Hd & Hl & Hloop & Hsave)]].
    + rewrite H in Hb. discriminate.
    + rewrite H in Hb. discriminate.
    + exists f, actions, data, src.
      pose proof (rotate_loop_completes src actions create newPdf Hloop) as Hacc.
      rewrite (rotate_loop_accepted src actions Hacc create) in Hloop.
      injection Hloop as <-. unfold create in Hsave. cbn [app] in Hsave.
      repeat split; assumption.
  - intros (f & actions & data & src & Hf & Ha & Hd & Hl & Hacc & Hsave).
    rewrite (rotate_pdf_run load save req now fsys f actions data src) by assumption.
    rewrite (rotate_loop_accepted src actions Hacc create).
    change (create ++ omap (rotate_output src) actions)
      with (omap (rotate_output src) actions).
    destruct (length (save (omap (rotate_output src) actions)) =? 0)%nat eqn:Hlen.
    + apply Nat.eqb_eq in Hlen. apply length_zero_iff_nil in Hlen. contradiction.
    + eauto.
Qed.

(* --------------------------------------------------------------------- *)
(* /upload and /compress-video on their other paths                      *)
(* --------------------------------------------------------------------- *)

(** X15.  /upload with an allowed type, when sharp encodes the image: the
    PNG encoder is used for image/png and the JPEG encoder otherwise, the
    result is written to compressed/compressed_<filename>, the answer is
    200 with the size of the written file, and the upload is deleted. *)
Theorem upload_success
    (sharp : ImageFormat -> Z -> bytes -> option bytes)
    (req : UploadRequest) (fsys : gmap string bytes) (f : File) (data out : bytes) :
  up_file req = Some f ->
  mimetype f ∈ allowedTypes ->
  fsys !! path f = Some data ->
  sharp (if bool_decide (mimetype f = "image/png") then png else jpeg)
        (image_quality (up_param req)) data = Some out ->
  upload sharp req (fresh fsys) =
  (Normal tt,
   mkWorld
     (delete (path f)
        (<[path_join "compressed" ("compressed_" +:+ filename f) := out]> fsys))
     (Some (mkResponse 200
              (JsonDownload (download_url ("compressed_" +:+ filename f))
                            (Z.of_nat (length out)))))).
Proof.
  intros Hf Hmime Hdata Hsharp. unfold upload. rewrite Hf. run_ops.
  rewrite bool_decide_eq_true_2 by assumption. cbn [negb].
  unfold try_catch. run_ops.
  destruct (bool_decide (mimetype f = "image/png"));
    unfold sharp_toFile; cbn [files sent]; rewrite Hdata, Hsharp;
    run_ops; rewrite lookup_insert_eq; cbn [files sent];
    rewrite lookup_insert; (case_decide; [| rewrite Hdata]); reflexivity.
Qed.

Lemma upload_success_witness :
  upload (fun fmt q data => match fmt with jpeg => Some [Byte.xff; Byte.xd8] | png => None end)
    (mkUploadRequest (Some upload_jpg) (Some "70"))
    (fresh {[ path upload_jpg := five_pages ]}) =
  (Normal tt,
   mkWorld
     (delete (path upload_jpg)
        (<[path_join "compressed" ("compressed_" +:+ filename upload_jpg) := [Byte.xff; Byte.xd8]]>
           {[ path upload_jpg := five_pages ]}))
     (Some (mkResponse 200
              (JsonDownload (download_url ("compressed_" +:+ filename upload_jpg))
                            (Z.of_nat (length [Byte.xff; Byte.xd8])))))).
Proof.
  apply (upload_success
           (fun fmt q data => match fmt with jpeg => Some [Byte.xff; Byte.xd8] | png => None end)
           (mkUploadRequest (Some upload_jpg) (Some "70"))
           {[ path upload_jpg := five_pages ]} upload_jpg five_pages).
  - reflexivity.
  - vm_compute. apply list_elem_of_here.
  - vm_compute. reflexivity.
  - reflexivity.
Defined.

(** X16.  /upload with a type other than image/jpeg and image/png: the
    upload is deleted and the answer is 400, whatever the encoder would
    do; nothing is written to compressed/. *)
Theorem upload_rejects_other_types
    (sharp : ImageFormat -> Z -> bytes -> option bytes)
    (req : UploadRequest) (fsys : gmap string bytes) (f : File) (data : bytes) :
  up_file req = Some f ->
  mimetype f ∉ allowedTypes ->
  fsys !! path f = Some data ->
  upload sharp req (fresh fsys) =
  (Normal tt,
   mkWorld (delete (path f) fsys)
           (Some (mkResponse 400 (Text "Only JPG and PNG formats are allowed.")))).
Proof. apply upload_rejected_type. Qed.

Lemma upload_rejects_other_types_witness :
  upload (fun fmt q data => Some data)
    (mkUploadRequest (Some upload_pdf) (Some "70"))
    (fresh {[ path upload_pdf := five_pages ]}) =
  (Normal tt,
   mkWorld (delete (path upload_pdf) {[ path upload_pdf := five_pages ]})
           (Some (mkResponse 400 (Text "Only JPG and PNG formats are allowed.")))).
Proof.
  apply (upload_rejects_other_types (fun fmt q data => Some data)
           (mkUploadRequest (Some upload_pdf) (Some "70"))
           {[ path upload_pdf := five_pages ]} upload_pdf five_pages).
  - reflexivity.
  - vm_compute. intros H. repeat (inversion H as [| ? ? ? H']; subst; clear H; rename H' into H).
  - vm_compute. reflexivity.
Defined.

(** X17.  /compress-video, when ffmpeg succeeds on an upload that is not
    at the output path: the result is at compressed/compressed_<now>.mp4,
    the upload is deleted, and the answer is 200 with the size of the
    result.  The constant rate factor is the parsed crf parameter, or 28
    when it is missing, not numeric or 0. *)
Theorem compress_video_success
    (ffmpeg : Z -> bytes -> option bytes)
    (req : UploadRequest) (now : Z) (fsys : gmap string bytes) (f : File) (data out : bytes) :
  up_file req = Some f ->
  fsys !! path f = Some data ->
  path f <> path_join "compressed" (output_name "compressed_" now ".mp4") ->
  ffmpeg (JS.or (JS.parseInt (up_param req)) 28) data = Some out ->
  compress_video ffmpeg req now (fresh fsys) =
  (Normal tt,
   mkWorld
     (delete (path f)
        (<[path_join "compressed" (output_name "compressed_" now ".mp4") := out]> fsys))
     (Some (mkResponse 200
              (JsonFinal (download_url (output_name "compressed_" now ".mp4"))
                         (Z.of_nat (length out)))))).
Proof.
  intros Hf Hdata Hne Hff. unfold compress_video. rewrite Hf. run_ops.
  unfold exec_ffmpeg. cbn [files sent]. rewrite Hdata, Hff. cbn [files sent].
  fold (output_name "compressed_" now ".mp4").
  rewrite lookup_insert_ne by congruence. rewrite Hdata. cbn [files sent].
  rewrite lookup_delete_ne by assumption. rewrite lookup_insert_eq. reflexivity.
Qed.

Lemma compress_video_success_witness :
  compress_video (fun crf data => if crf =? 28 then Some [Byte.x00] else None)
    (mkUploadRequest (Some upload_mp4) (Some "0")) 1700000000123
    (fresh {[ path upload_mp4 := five_pages ]}) =
  (Normal tt,
   mkWorld
     (delete (path upload_mp4)
        (<[path_join "compressed" (output_name "compressed_" 1700000000123 ".mp4") := [Byte.x00]]>
           {[ path upload_mp4 := five_pages ]}))
     (Some (mkResponse 200
              (JsonFinal (download_url (output_name "compressed_" 1700000000123 ".mp4"))
                         (Z.of_nat (length [Byte.x00])))))).
Proof.
  apply (compress_video_success (fun crf data => if crf =? 28 then Some [Byte.x00] else None)
           (mkUploadRequest (Some upload_mp4) (Some "0")) 1700000000123
           {[ path upload_mp4 := five_pages ]} upload_mp4 five_pages).
  - reflexivity.
  - vm_compute. reflexivity.
  - vm_compute. discriminate.
  - reflexivity.
Defined.

(** X18.  /compress-video never runs ffmpeg with a constant rate factor
    of 0: an ffmpeg that refuses 0 gives the same run, for every request
    and every world. *)
Theorem compress_video_crf_nonzero
    (ffmpeg : Z -> bytes -> option bytes) (req : UploadRequest) (now : Z) (w : World) :
  compress_video (nonzero_crf ffmpeg) req now w = compress_video ffmpeg req now w.
Proof.
  unfold compress_video. destruct (up_file req) as [f |]; [| reflexivity].
  run_ops. unfold exec_ffmpeg, nonzero_crf.
  destruct (or_default_cases (JS.parseInt (up_param req)) 28)
    as [[_ ->] | [[_ ->] | (v & _ & Hv & ->)]]; [reflexivity | reflexivity |].
  apply Z.eqb_neq in Hv. rewrite Hv. reflexivity.
Qed.

(* --------------------------------------------------------------------- *)
(* /protect-pdf, /make-searchable, /convert-to-pdf, /image-to-pdf        *)
(* --------------------------------------------------------------------- *)

(** X19.  /protect-pdf without a password (missing or empty): the upload
    is deleted and the answer is 400; qpdf is not run, so nothing is
    written to compressed/. *)
Theorem protect_pdf_without_password
    (qpdf : string -> bytes -> option bytes)
    (req : ProtectRequest) (now : Z) (fsys : gmap string bytes) (f : File) (data : bytes) :
  pr_file req = Some f ->
  falsy (pr_password req) = true ->
  fsys !! path f = Some data ->
  protect_pdf qpdf req now (fresh fsys) =
  (Normal tt,
   mkWorld (delete (path f) fsys)
           (Some (mkResponse 400 (Text "Password is required.")))).
Proof.
  intros Hf Hpw Hdata. unfold protect_pdf. rewrite Hf. run_ops.
  rewrite Hpw. run_ops. rewrite Hdata. reflexivity.
Qed.

Lemma protect_pdf_without_password_witness :
  protect_pdf (fun pw data => Some data)
    (mkProtectRequest (Some upload_pdf) (Some "")) 1700000000123
    (fresh {[ path upload_pdf := five_pages ]}) =
  (Normal tt,
   mkWorld (delete (path upload_pdf) {[ path upload_pdf := five_pages ]})
           (Some (mkResponse 400 (Text "Password is required.")))).
Proof.
  apply (protect_pdf_without_password (fun pw data => Some data)
           (mkProtectRequest (Some upload_pdf) (Some "")) 1700000000123
           {[ path upload_pdf := five_pages ]} upload_pdf five_pages).
  - reflexivity.
  - reflexivity.
  - vm_compute. reflexivity.
Defined.







(** X23.  /convert-to-pdf on an upload that is on disk: the upload is
    deleted whether LibreOffice converts it or not; on success the result
    is written under the original name with its extension replaced by
    .pdf, and the answer is 200 with the size of the result; on failure
    the answer is 500 and nothing is written. *)
Theorem convert_to_pdf_run
    (libre_convert : bytes -> option bytes)
    (extname : string -> string) (basename : string -> string -> string)
    (req : UploadRequest) (fsys : gmap string bytes) (f : File) (data : bytes) :
  up_file req = Some f ->
  fsys !! path f = Some data ->
  convert_to_pdf libre_convert extname basename req (fresh fsys) =
  match libre_convert data with
  | Some done =>
      (Normal tt,
       mkWorld
         (delete (path f)
            (<[path_join "compressed"
                 (basename (originalname f) (extname (originalname f)) +:+ ".pdf") := done]> fsys))
         (Some (mkResponse 200
                  (JsonDownload
                     (download_url (basename (originalname f) (extname (originalname f)) +:+ ".pdf"))
                     (Z.of_nat (length done))))))
  | None =>
      (Normal tt,
       mkWorld (delete (path f) fsys)
               (Some (mkResponse 500 (Text "File conversion failed."))))
  end.
Proof.
  intros Hf Hdata. unfold convert_to_pdf. rewrite Hf. run_ops. rewrite Hdata.
  destruct (libre_convert data) as [done |]; run_ops.
  - rewrite lookup_insert_eq. cbn [files sent].
    rewrite lookup_insert. case_decide; [| rewrite Hdata]; reflexivity.
  - rewrite Hdata. reflexivity.
Qed.

Lemma convert_to_pdf_run_witness :
  convert_to_pdf (fun data => Some (Byte.x25 :: data)) (fun name => ".docx")
    (fun name ext => "report")
    (mkUploadRequest (Some (mkFile "uploads/1700000000003.docx" "1700000000003.docx"
                                   "application/msword" "report.docx")) None)
    (fresh {[ "uploads/1700000000003.docx" := five_pages ]}) =
  match Some (Byte.x25 :: five_pages) with
  | Some done =>
      (Normal tt,
       mkWorld
         (delete "uploads/1700000000003.docx"
            (<[path_join "compressed" ("report" +:+ ".pdf") := done]>
               {[ "uploads/1700000000003.docx" := five_pages ]}))
         (Some (mkResponse 200
                  (JsonDownload (download_url ("report" +:+ ".pdf"))
                                (Z.of_nat (length done))))))
  | None =>
      (Normal tt,
       mkWorld (delete "uploads/1700000000003.docx"
                  {[ "uploads/1700000000003.docx" := five_pages ]})
               (Some (mkResponse 500 (Text "File conversion failed."))))
  end.
Proof.
  apply (convert_to_pdf_run (fun data => Some (Byte.x25 :: data)) (fun name => ".docx")
           (fun name ext => "report")
           (mkUploadRequest (Some (mkFile "uploads/1700000000003.docx" "1700000000003.docx"
                                          "application/msword" "report.docx")) None)
           {[ "uploads/1700000000003.docx" := five_pages ]}
           (mkFile "uploads/1700000000003.docx" "1700000000003.docx"
                   "application/msword" "report.docx") five_pages).
  - reflexivity.
  - vm_compute. reflexivity.
Defined.

(** X24.  The result of /convert-to-pdf is named after the original name
    only, not after the clock: when two uploads with the same original
    name are converted one after the other, the second result replaces
    the first at the same path, and both answers carry the same URL. *)
Theorem convert_to_pdf_same_name_overwrites
    (libre_convert : bytes -> option bytes)
    (extname : string -> string) (basename : string -> string -> string)
    (req1 req2 : UploadRequest) (fsys : gmap string bytes)
    (f1 f2 : File) (data1 data2 done1 done2 : bytes) :
  up_file req1 = Some f1 -> up_file req2 = Some f2 ->
  originalname f1 = originalname f2 ->
  path f1 <> path f2 ->
  path f2 <> path_join "compressed"
               (basename (originalname f2) (extname (originalname f2)) +:+ ".pdf") ->
  fsys !! path f1 = Some data1 -> fsys !! path f2 = Some data2 ->
  libre_convert data1 = Some done1 -> libre_convert data2 = Some done2 ->
  let out := path_join "compressed"
               (basename (originalname f1) (extname (originalname f1)) +:+ ".pdf") in
  let w1 := (convert_to_pdf libre_convert extname basename req1 (fresh fsys)).2 in
  let w2 := (convert_to_pdf libre_convert extname basename req2 (fresh (files w1))).2 in
  files w2 !! out = Some done2
  /\ (exists url size1 size2,
        sent w1 = Some (mkResponse 200 (JsonDownload url size1))
        /\ sent w2 = Some (mkResponse 200 (JsonDownload url size2))).
Proof.
  intros Hf1 Hf2 Hname Hpaths Hout Hd1 Hd2 Hc1 Hc2 out w1 w2.
  subst w2 w1 out.
  rewrite (convert_to_pdf_run libre_convert extname basename req1 fsys f1 data1 Hf1 Hd1).
  rewrite Hc1. cbn [snd files sent].
  rewrite Hname in *.
  set (out := path_join "compressed" _) in *.
  assert (Hd2' : delete (path f1) (<[out := done1]> fsys) !! path f2 = Some data2).
  { rewrite lookup_delete_ne by assumption.
    rewrite lookup_insert_ne by congruence. assumption. }
  rewrite (convert_to_pdf_run libre_convert extname basename req2 _ f2 data2 Hf2 Hd2').
  rewrite Hc2. cbn [snd files sent]. fold out. split.
  - rewrite lookup_delete_ne by assumption. apply lookup_insert_eq.
  - eauto.
Qed.

Lemma convert_to_pdf_same_name_overwrites_witness :
  let f1 := mkFile "uploads/1.docx" "1.docx" "application/msword" "report.docx" in
  let f2 := mkFile "uploads/2.docx" "2.docx" "application/msword" "report.docx" in
  let fsys : gmap string bytes := <[ "uploads/2.docx" := [Byte.x02] ]> {[ "uploads/1.docx" := [Byte.x01] ]} in
  let out := path_join "compressed" ("report" +:+ ".pdf") in
  let w1 := (convert_to_pdf (fun data => Some (Byte.x25 :: data)) (fun name => ".docx")
               (fun name ext => "report") (mkUploadRequest (Some f1) None) (fresh fsys)).2 in
  let w2 := (convert_to_pdf (fun data => Some (Byte.x25 :: data)) (fun name => ".docx")
               (fun name ext => "report") (mkUploadRequest (Some f2) None) (fresh (files w1))).2 in
  files w2 !! out = Some [Byte.x25; Byte.x02]
  /\ (exists url size1 size2,
        sent w1 = Some (mkResponse 200 (JsonDownload url size1))
        /\ sent w2 = Some (mkResponse 200 (JsonDownload url size2))).
Proof.
  apply (convert_to_pdf_same_name_overwrites (fun data => Some (Byte.x25 :: data))
           (fun name => ".docx") (fun name ext => "report")
           (mkUploadRequest (Some (mkFile "uploads/1.docx" "1.docx" "application/msword" "report.docx")) None)
           (mkUploadRequest (Some (mkFile "uploads/2.docx" "2.docx" "application/msword" "report.docx")) None)
           (<[ "uploads/2.docx" := [Byte.x02] ]> {[ "uploads/1.docx" := [Byte.x01] ]})
           (mkFile "uploads/1.docx" "1.docx" "application/msword" "report.docx")
           (mkFile "uploads/2.docx" "2.docx" "application/msword" "report.docx")
           [Byte.x01] [Byte.x02] [Byte.x25; Byte.x01] [Byte.x25; Byte.x02]).
  - reflexivity.
  - reflexivity.
  - reflexivity.
  - vm_compute. discriminate.
  - vm_compute. discriminate.
  - vm_compute. reflexivity.
  - vm_compute. reflexivity.
  - reflexivity.
  - reflexivity.
Defined.

(** X25.  /image-to-pdf with an extension that is not .jpg, .jpeg or .png
    once lower-cased: the upload is deleted and the answer is 400; the
    image is not read and nothing is written to compressed/. *)
Theorem image_to_pdf_rejects_extension
    (save : PDFDocument -> bytes) (extname toLowerCase : string -> string)
    (embed : ImageFormat -> bytes -> option (Z * Z))
    (req : UploadRequest) (now : Z) (fsys : gmap string bytes) (f : File) (data : bytes) :
  up_file req = Some f ->
  toLowerCase (extname (originalname f)) ∉ [".jpg"; ".jpeg"; ".png"] ->
  fsys !! path f = Some data ->
  image_to_pdf save extname toLowerCase embed req now (fresh fsys) =
  (Normal tt,
   mkWorld (delete (path f) fsys)
           (Some (mkResponse 400 (Text "Only JPG, PNG, and JPEG files are allowed.")))).
Proof.
  intros Hf Hext Hdata. unfold image_to_pdf. rewrite Hf. run_ops.
  rewrite bool_decide_eq_false_2 by assumption. cbn [negb].
  run_ops. rewrite Hdata. reflexivity.
Qed.

Lemma image_to_pdf_rejects_extension_witness :
  image_to_pdf demo_save (fun name => ".GIF") (fun ext => ".gif") (fun fmt data => Some (1, 1))
    (mkUploadRequest (Some (mkFile "uploads/4.GIF" "4.GIF" "image/gif" "a.GIF")) None)
    1700000000123 (fresh {[ "uploads/4.GIF" := five_pages ]}) =
  (Normal tt,
   mkWorld (delete "uploads/4.GIF" {[ "uploads/4.GIF" := five_pages ]})
           (Some (mkResponse 400 (Text "Only JPG, PNG, and JPEG files are allowed.")))).
Proof.
  apply (image_to_pdf_rejects_extension demo_save (fun name => ".GIF") (fun ext => ".gif")
           (fun fmt data => Some (1, 1))
           (mkUploadRequest (Some (mkFile "uploads/4.GIF" "4.GIF" "image/gif" "a.GIF")) None)
           1700000000123 {[ "uploads/4.GIF" := five_pages ]}
           (mkFile "uploads/4.GIF" "4.GIF" "image/gif" "a.GIF") five_pages).
  - reflexivity.
  - intros H. repeat (inversion H as [| ? ? ? H']; subst; clear H; rename H' into H).
  - vm_compute. reflexivity.
Defined.

(** X26.  /image-to-pdf with an allowed extension, when pdf-lib embeds
    the image: the PNG reader is used for .png and the JPEG reader for
    .jpg and .jpeg; the document that is written has exactly one page, of
    the width and height of the image, unrotated; the answer is 200 with
    the length of the written bytes and the upload is deleted. *)
Theorem image_to_pdf_success
    (save : PDFDocument -> bytes) (extname toLowerCase : string -> string)
    (embed : ImageFormat -> bytes -> option (Z * Z))
    (req : UploadRequest) (now : Z) (fsys : gmap string bytes) (f : File)
    (data : bytes) (width height : Z) :
  up_file req = Some f ->
  toLowerCase (extname (originalname f)) ∈ [".jpg"; ".jpeg"; ".png"] ->
  fsys !! path f = Some data ->
  embed (if bool_decide (toLowerCase (extname (originalname f)) = ".png") then png else jpeg)
        data = Some (width, height) ->
  exists onePage,
    onePage = [mkPage (string_of_list_byte data) (100 * width, 100 * height) 0]
    /\ image_to_pdf save extname toLowerCase embed req now (fresh fsys) =
       (Normal tt,
        mkWorld
          (delete (path f)
             (<[path_join "compressed" (output_name "converted_" now ".pdf") := save onePage]> fsys))
          (Some (mkResponse 200
                   (JsonDownload (download_url (output_name "converted_" now ".pdf"))
                                 (Z.of_nat (length (save onePage))))))).
Proof.
  intros Hf Hext Hdata Hembed. eexists. split; [reflexivity |].
  unfold image_to_pdf. rewrite Hf. run_ops.
  rewrite bool_decide_eq_true_2 by assumption. cbn [negb].
  unfold try_catch. run_ops. rewrite Hdata, Hembed. run_ops.
  fold (output_name "converted_" now ".pdf"). clear Hembed.
  rewrite lookup_insert. case_decide; [| rewrite Hdata]; reflexivity.
Qed.

Lemma image_to_pdf_success_witness :
  exists onePage,
    onePage = [mkPage (string_of_list_byte five_pages) (100 * 640, 100 * 480) 0]
    /\ image_to_pdf demo_save (fun name => ".PNG") (fun ext => ".png")
         (fun fmt data => match fmt with png => Some (640, 480) | jpeg => None end)
         (mkUploadRequest (Some (mkFile "uploads/5.PNG" "5.PNG" "image/png" "a.PNG")) None)
         1700000000123 (fresh {[ "uploads/5.PNG" := five_pages ]}) =
       (Normal tt,
        mkWorld
          (delete "uploads/5.PNG"
             (<[path_join "compressed" (output_name "converted_" 1700000000123 ".pdf") := demo_save onePage]>
                {[ "uploads/5.PNG" := five_pages ]}))
          (Some (mkResponse 200
                   (JsonDownload (download_url (output_name "converted_" 1700000000123 ".pdf"))
                                 (Z.of_nat (length (demo_save onePage))))))).
Proof.
  apply (image_to_pdf_success demo_save (fun name => ".PNG") (fun ext => ".png")
           (fun fmt data => match fmt with png => Some (640, 480) | jpeg => None end)
           (mkUploadRequest (Some (mkFile "uploads/5.PNG" "5.PNG" "image/png" "a.PNG")) None)
           1700000000123 {[ "uploads/5.PNG" := five_pages ]}
           (mkFile "uploads/5.PNG" "5.PNG" "image/png" "a.PNG") five_pages 640 480).
  - reflexivity.
  - do 2 apply list_elem_of_further. apply list_elem_of_here.
  - vm_compute. reflexivity.
  - reflexivity.
Defined.

(* --------------------------------------------------------------------- *)
(* The loop of /merge-pdf                                                *)
(* --------------------------------------------------------------------- *)

Lemma copyPages_from (doc : PDFDocument) (n k : nat) :
  (k + n)%nat = length doc ->
  copyPages doc (Z.of_nat <$> seq k n) = Normal (drop k doc).
Proof.
  revert k. induction n as [| n IH]; intros k Hk.
  - simpl. rewrite drop_ge by lia. reflexivity.
  - cbn [seq fmap list_fmap copyPages].
    destruct (lookup_lt_is_Some_2 doc k ltac:(lia)) as [x Hx].
    assert (Hp : pageAt doc (Z.of_nat k) = Some x).
    { unfold pageAt, getPageCount.
      replace ((0 <=? Z.of_nat k) && (Z.of_nat k <? Z.of_nat (length doc))) with true.
      - rewrite Nat2Z.id. assumption.
      - symmetry. apply andb_true_intro. split; [apply Z.leb_le | apply Z.ltb_lt]; lia. }
    rewrite Hp. change (list_fmap nat Z Z.of_nat (seq (S k) n)) with (Z.of_nat <$> seq (S k) n).
    rewrite IH by lia. rewrite (drop_S _ _ _ Hx). reflexivity.
Qed.

Lemma copyPages_all (doc : PDFDocument) :
  copyPages doc (getPageIndices doc) = Normal doc.
Proof. unfold getPageIndices. rewrite copyPages_from by lia. reflexivity. Qed.

Lemma fold_addPage (pages acc : PDFDocument) :
  fold_left addPage pages acc = acc ++ pages.
Proof.
  revert acc. induction pages as [| p pages IH]; intros acc; simpl.
  - rewrite app_nil_r. reflexivity.
  - rewrite IH. unfold addPage. rewrite <- app_assoc. reflexivity.
Qed.

Lemma merge_loop_step (load : bytes -> option PDFDocument) (file : File)
    (rest : list File) (acc doc : PDFDocument) (fsys : gmap string bytes)
    (r : option Response) :
  readable load fsys file doc ->
  merge_loop load (file :: rest) acc (mkWorld fsys r) =
  merge_loop load rest (acc ++ doc) (mkWorld (delete (path file) fsys) r).
Proof.
  intros (data & Hdata & Hload). cbn [merge_loop]. run_ops.
  rewrite Hdata, Hload. cbn [files sent]. rewrite copyPages_all, fold_addPage.
  rewrite Hdata. reflexivity.
Qed.

Lemma readable_after_unlink (load : bytes -> option PDFDocument)
    (fsys : gmap string bytes) (f g : File) (doc : PDFDocument) :
  path f <> path g ->
  readable load fsys g doc -> readable load (delete (path f) fsys) g doc.
Proof.
  intros Hne (data & Hdata & Hload). exists data.
  rewrite lookup_delete_ne by assumption. auto.
Qed.

Lemma readable_all_after_unlink (load : bytes -> option PDFDocument)
    (fsys : gmap string bytes) (f : File) (good : list File) (docs : list PDFDocument) :
  path f ∉ path <$> good ->
  Forall2 (readable load fsys) good docs ->
  Forall2 (readable load (delete (path f) fsys)) good docs.
Proof.
  intros Hnotin Hread. induction Hread as [| g d good docs Hg _ IH]; [constructor |].
  cbn [fmap list_fmap] in Hnotin. apply not_elem_of_cons in Hnotin as [Hne Hnotin].
  constructor; [apply readable_after_unlink; assumption | apply IH; assumption].
Qed.

Lemma merge_loop_prefix (load : bytes -> option PDFDocument)
    (good : list File) (docs : list PDFDocument) :
  forall (rest : list File) (acc : PDFDocument) (fsys : gmap string bytes)
         (r : option Response),
    Forall2 (readable load fsys) good docs ->
    NoDup (path <$> good) ->
    merge_loop load (good ++ rest) acc (mkWorld fsys r) =
    merge_loop load rest (acc ++ concat docs) (mkWorld (unlink_all good fsys) r).
Proof.
  revert docs. induction good as [| f good IH]; intros docs rest acc fsys r Hread Hnodup.
  - inversion Hread; subst. simpl. rewrite app_nil_r. reflexivity.
  - inversion Hread as [| ? doc ? docs' Hf Hrest]; subst.
    cbn [fmap list_fmap] in Hnodup. apply NoDup_cons in Hnodup as [Hnotin Hnodup].
    cbn [app]. rewrite (merge_loop_step load f (good ++ rest) acc doc fsys r Hf).
    rewrite (IH docs').
    + cbn [concat unlink_all fold_left]. rewrite app_assoc. reflexivity.
    + apply readable_all_after_unlink; assumption.
    + assumption.
Qed.

Lemma unlink_all_lookup (uploads : list File) (fsys : gmap string bytes) (p : string) :
  unlink_all uploads fsys !! p = if decide (p ∈ path <$> uploads) then None else fsys !! p.
Proof.
  revert fsys. induction uploads as [| f uploads IH]; intros fsys.
  - cbn [unlink_all fold_left fmap list_fmap].
    rewrite decide_False by apply not_elem_of_nil. reflexivity.
  - cbn [unlink_all fold_left]. fold (unlink_all uploads (delete (path f) fsys)).
    rewrite IH. cbn [fmap list_fmap].
    destruct (decide (p ∈ path <$> uploads)) as [Hin | Hnotin].
    + rewrite decide_True by (apply list_elem_of_further; assumption). reflexivity.
    + destruct (decide (p = path f)) as [-> | Hne].
      * rewrite decide_True by apply list_elem_of_here. apply lookup_delete_eq.
      * rewrite decide_False by (intros H; apply elem_of_cons in H as [? | ?]; contradiction).
        apply lookup_delete_ne. congruence.
Qed.

(** X27.  The loop of /merge-pdf, when every upload is on disk under its
    own path and readable: the merged document holds all the pages of the
    first upload, then all the pages of the second, and so on, each
    document in its own page order; every upload is deleted and no other
    file is touched. *)
Theorem merge_loop_success (load : bytes -> option PDFDocument)
    (uploads : list File) (docs : list PDFDocument)
    (fsys : gmap string bytes) (r : option Response) :
  Forall2 (readable load fsys) uploads docs ->
  NoDup (path <$> uploads) ->
  merge_loop load uploads create (mkWorld fsys r) =
    (Normal (concat docs), mkWorld (unlink_all uploads fsys) r)
  /\ length (concat docs) = sum_list (length <$> docs)
  /\ (forall p, unlink_all uploads fsys !! p =
                if decide (p ∈ path <$> uploads) then None else fsys !! p).
Proof.
  intros Hread Hnodup. split; [| split].
  - pose proof (merge_loop_prefix load uploads docs [] create fsys r Hread Hnodup) as H.
    rewrite app_nil_r in H. rewrite H. reflexivity.
  - clear. induction docs as [| d docs IH]; [reflexivity |].
    cbn [concat fmap list_fmap sum_list sum_list_with]. rewrite length_app.
    fold (sum_list (length <$> docs)). rewrite IH. reflexivity.
  - apply unlink_all_lookup.
Qed.

Lemma merge_loop_success_witness :
  merge_loop demo_load [upload_pdf; upload_jpg] create
      (mkWorld (<[ path upload_jpg := [Byte.x78; Byte.x79] ]> {[ path upload_pdf := five_pages ]}) None) =
    (Normal (concat [five_page_doc; [mkPage "x" A4 0; mkPage "y" A4 0]]),
     mkWorld (unlink_all [upload_pdf; upload_jpg]
                (<[ path upload_jpg := [Byte.x78; Byte.x79] ]> {[ path upload_pdf := five_pages ]})) None)
  /\ length (concat [five_page_doc; [mkPage "x" A4 0; mkPage "y" A4 0]])
     = sum_list (length <$> [five_page_doc; [mkPage "x" A4 0; mkPage "y" A4 0]])
  /\ (forall p, unlink_all [upload_pdf; upload_jpg]
                  (<[ path upload_jpg := [Byte.x78; Byte.x79] ]> {[ path upload_pdf := five_pages ]}) !! p =
                if decide (p ∈ path <$> [upload_pdf; upload_jpg]) then None
                else (<[ path upload_jpg := [Byte.x78; Byte.x79] ]> {[ path upload_pdf := five_pages ]}
                        : gmap string bytes) !! p).
Proof.
  apply (merge_loop_success demo_load [upload_pdf; upload_jpg]
           [five_page_doc; [mkPage "x" A4 0; mkPage "y" A4 0]]).
  - repeat constructor; eexists; (split; [vm_compute; reflexivity | reflexivity]).
  - vm_compute. repeat constructor; intros H;
      repeat (inversion H as [| ? ? ? H']; subst; clear H; rename H' into H).
Defined.

(** X28.  The loop of /merge-pdf, when an upload cannot be read by
    pdf-lib: the loop throws at that upload; the uploads before it are
    already deleted, and that upload and the ones after it are left on
    disk. *)
Theorem merge_loop_unreadable (load : bytes -> option PDFDocument)
    (good : list File) (docs : list PDFDocument) (bad : File) (rest : list File)
    (data : bytes) (fsys : gmap string bytes) (r : option Response) :
  Forall2 (readable load fsys) good docs ->
  NoDup (path <$> good ++ bad :: rest) ->
  fsys !! path bad = Some data ->
  load data = None ->
  exists e,
    merge_loop load (good ++ bad :: rest) create (mkWorld fsys r) =
      (Throw e, mkWorld (unlink_all good fsys) r)
    /\ (forall f, f ∈ good -> unlink_all good fsys !! path f = None)
    /\ (forall f, f ∈ bad :: rest -> unlink_all good fsys !! path f = fsys !! path f).
Proof.
  intros Hread Hnodup Hdata Hload.
  rewrite fmap_app in Hnodup. apply NoDup_app in Hnodup as (Hgood & Hdisj & _).
  eexists. split; [| split].
  - rewrite (merge_loop_prefix load good docs (bad :: rest) create fsys r Hread Hgood).
    cbn [merge_loop]. run_ops.
    rewrite unlink_all_lookup.
    rewrite decide_False by (intros H; apply (Hdisj _ H); cbn [fmap list_fmap]; apply list_elem_of_here).
    rewrite Hdata, Hload. reflexivity.
  - intros f Hf. rewrite unlink_all_lookup.
    rewrite decide_True by (apply list_elem_of_fmap_2; assumption). reflexivity.
  - intros f Hf. rewrite unlink_all_lookup.
    rewrite decide_False; [reflexivity |].
    intros H. apply (Hdisj _ H). apply list_elem_of_fmap_2. assumption.
Qed.

Lemma merge_loop_unreadable_witness :
  exists e,
    merge_loop (fun data => match data with [] => None | _ => demo_load data end)
      ([upload_pdf] ++ upload_jpg :: [upload_mp4]) create
      (mkWorld (<[ path upload_mp4 := [Byte.x7a] ]>
                  (<[ path upload_jpg := [] ]> {[ path upload_pdf := five_pages ]})) None) =
      (Throw e,
       mkWorld (unlink_all [upload_pdf]
                  (<[ path upload_mp4 := [Byte.x7a] ]>
                     (<[ path upload_jpg := [] ]> {[ path upload_pdf := five_pages ]}))) None)
    /\ (forall f, f ∈ [upload_pdf] ->
          unlink_all [upload_pdf]
            (<[ path upload_mp4 := [Byte.x7a] ]>
               (<[ path upload_jpg := [] ]> {[ path upload_pdf := five_pages ]})) !! path f = None)
    /\ (forall f, f ∈ upload_jpg :: [upload_mp4] ->
          unlink_all [upload_pdf]
            (<[ path upload_mp4 := [Byte.x7a] ]>
               (<[ path upload_jpg := [] ]> {[ path upload_pdf := five_pages ]})) !! path f
          = (<[ path upload_mp4 := [Byte.x7a] ]>
               (<[ path upload_jpg := [] ]> {[ path upload_pdf := five_pages ]})
               : gmap string bytes) !! path f).
Proof.
  apply (merge_loop_unreadable
           (fun data => match data with [] => None | _ => demo_load data end)
           [upload_pdf] [five_page_doc] upload_jpg [upload_mp4] []).
  - repeat constructor. eexists; (split; [vm_compute; reflexivity | reflexivity]).
  - vm_compute. repeat constructor; intros H;
      repeat (inversion H as [| ? ? ? H']; subst; clear H; rename H' into H).
  - vm_compute. reflexivity.
  - reflexivity.
Defined.
